(** * Access-request validation (lib/services/access_request.go)

    A shallow embedding of the request filter encoding, the request state
    setter, the policy aggregator ([requestValidator]) and the validation
    routine ([ValidateAccessRequest]), with the properties the design
    document states about them. *)

From Stdlib Require Import ZArith.
From stdpp Require Import base option list strings pretty gmap fin_maps.

Open Scope string_scope.
Open Scope list_scope.

(** ** Errors

    [trace.BadParameter] and [trace.NotFound] build an error of a given class
    from a format string and its arguments; the embedding keeps both, so that
    two errors are equal exactly when class, format and arguments agree.
    [trace.Wrap] only attaches a stack trace; class and message are those of
    the error it wraps. *)

Inductive error : Type :=
  | BadParameter (format : string) (args : list string)
  | NotFound (format : string) (args : list string)
  | OtherError (message : string).

Definition Wrap (err : error) : error := err.

Definition is_BadParameter (err : error) : bool :=
  match err with BadParameter _ _ => true | _ => false end.

(** ** A state-and-error monad

    Methods with a pointer receiver that return [error] become computations
    over the receiver: they yield the receiver as the method leaves it,
    together with either the error or the result. *)

Definition M (S A : Type) : Type := S → S * (error + A).

Definition ret {S A} (a : A) : M S A := λ s, (s, inr a).

Definition throw {S A} (err : error) : M S A := λ s, (s, inl err).

Definition bind {S A B} (m : M S A) (k : A → M S B) : M S B :=
  λ s, match m s with
       | (s', inr a) => k a s'
       | (s', inl err) => (s', inl err)
       end.

Definition get {S} : M S S := λ s, (s, inr s).

Definition modify {S} (f : S → S) : M S unit := λ s, (f s, inr tt).

(** A fallible call that does not touch the receiver; the caller returns
    [trace.Wrap(err)] when it fails. *)
Definition try_wrap {S A} (r : error + A) : M S A :=
  match r with
  | inl err => throw (Wrap err)
  | inr a => ret a
  end.

(** [if err := m; err != nil { return trace.Wrap(err) }]. *)
Definition wrapped {S A} (m : M S A) : M S A :=
  λ s, match m s with
       | (s', inl err) => (s', inl (Wrap err))
       | (s', inr a) => (s', inr a)
       end.

(** Run a computation on a field of the receiver. *)
Definition zoom {S T A} (proj : S → T) (inj : T → S → S) (m : M T A) : M S A :=
  λ s, let '(t, r) := m (proj s) in (inj t s, r).

#[global] Instance M_ret {S} : MRet (M S) := λ A, ret.
#[global] Instance M_bind {S} : MBind (M S) := λ A B k m, bind m k.

(** [for _, x := range l { body x }], leaving at the first error. *)
Fixpoint for_range {S A} (l : list A) (body : A → M S unit) : M S unit :=
  match l with
  | [] => ret tt
  | x :: rest => body x;; for_range rest body
  end.

(** ** Request states

    [RequestState] is the generated enumeration type, a 32-bit integer. *)

Definition RequestState : Type := Z.

Definition RequestState_NONE : RequestState := 0%Z.
Definition RequestState_PENDING : RequestState := 1%Z.
Definition RequestState_APPROVED : RequestState := 2%Z.
Definition RequestState_DENIED : RequestState := 3%Z.

(** Modelled from the spec: the generated [String] method of [RequestState]
    is not part of the sources at hand.  The four states print as their
    names (NONE, PENDING, APPROVED, DENIED), any other number in decimal. *)
Definition RequestState_String (s : RequestState) : string :=
  if bool_decide (s = RequestState_NONE) then "NONE"
  else if bool_decide (s = RequestState_PENDING) then "PENDING"
  else if bool_decide (s = RequestState_APPROVED) then "APPROVED"
  else if bool_decide (s = RequestState_DENIED) then "DENIED"
  else pretty s.

Definition stateVariants : list RequestState :=
  [RequestState_NONE; RequestState_PENDING; RequestState_APPROVED; RequestState_DENIED].

Definition IsNone (s : RequestState) : bool := bool_decide (s = RequestState_NONE).
Definition IsPending (s : RequestState) : bool := bool_decide (s = RequestState_PENDING).
Definition IsApproved (s : RequestState) : bool := bool_decide (s = RequestState_APPROVED).
Definition IsDenied (s : RequestState) : bool := bool_decide (s = RequestState_DENIED).

(** [Parse]: the loop over [stateVariants], then the method. *)
Fixpoint Parse_from (variants : list RequestState) (val : string) : M RequestState unit :=
  match variants with
  | [] => throw (BadParameter "unknown request state: %q" [val])
  | state :: rest =>
      if bool_decide (RequestState_String state = val)
      then modify (λ _, state)
      else Parse_from rest val
  end.

Definition Parse (val : string) : M RequestState unit := Parse_from stateVariants val.

(** ** Request filters and their map encoding *)

Module AccessRequestFilter.
Record t : Type := mk { ID : string; User : string; State : RequestState }.
Definition zero : t := mk "" "" 0%Z.
Definition set_ID (v : string) (f : t) : t := mk v (User f) (State f).
Definition set_User (v : string) (f : t) : t := mk (ID f) v (State f).
Definition set_State (v : RequestState) (f : t) : t := mk (ID f) (User f) v.
End AccessRequestFilter.

Definition keyID : string := "id".
Definition keyUser : string := "user".
Definition keyState : string := "state".

Definition IntoMap (f : AccessRequestFilter.t) : gmap string string :=
  let m : gmap string string := ∅ in
  let m := if negb (bool_decide (AccessRequestFilter.ID f = ""))
           then <[keyID := AccessRequestFilter.ID f]> m else m in
  let m := if negb (bool_decide (AccessRequestFilter.User f = ""))
           then <[keyUser := AccessRequestFilter.User f]> m else m in
  let m := if negb (IsNone (AccessRequestFilter.State f))
           then <[keyState := RequestState_String (AccessRequestFilter.State f)]> m else m in
  m.

(** The body of [FromMap] over the entries in the order in which the [range]
    statement happens to yield them. *)
Definition FromMap_range (entries : list (string * string)) : M AccessRequestFilter.t unit :=
  for_range entries (λ '(key, val),
    if bool_decide (key = keyID) then modify (AccessRequestFilter.set_ID val)
    else if bool_decide (key = keyUser) then modify (AccessRequestFilter.set_User val)
    else if bool_decide (key = keyState) then
      wrapped (zoom AccessRequestFilter.State AccessRequestFilter.set_State (Parse val))
    else throw (BadParameter "unknown filter key %s" [key])).

(** An iteration order of a Go map: each entry once, in any order. *)
Definition range_of {V} (m : gmap string V) (entries : list (string * V)) : Prop :=
  entries ≡ₚ map_to_list m.

Definition FromMap (m : gmap string string) : M AccessRequestFilter.t unit :=
  FromMap_range (map_to_list m).

Definition Equals (f o : AccessRequestFilter.t) : bool :=
  bool_decide (AccessRequestFilter.ID f = AccessRequestFilter.ID o)
  && bool_decide (AccessRequestFilter.User f = AccessRequestFilter.User o)
  && bool_decide (AccessRequestFilter.State f = AccessRequestFilter.State o).

(** ** Access requests *)

Module AccessRequestSpecV3.
Record t : Type := mk {
  User : string;
  Roles : list string;
  State : RequestState;
  Created : Z;
  Expires : Z;
  RequestReason : string;
  ResolveReason : string;
  ResolveAnnotations : gmap string (list string);
  SystemAnnotations : gmap string (list string)
}.
Definition set_Roles (v : list string) (s : t) : t :=
  mk (User s) v (State s) (Created s) (Expires s) (RequestReason s)
     (ResolveReason s) (ResolveAnnotations s) (SystemAnnotations s).
Definition set_State (v : RequestState) (s : t) : t :=
  mk (User s) (Roles s) v (Created s) (Expires s) (RequestReason s)
     (ResolveReason s) (ResolveAnnotations s) (SystemAnnotations s).
Definition set_SystemAnnotations (v : gmap string (list string)) (s : t) : t :=
  mk (User s) (Roles s) (State s) (Created s) (Expires s) (RequestReason s)
     (ResolveReason s) (ResolveAnnotations s) v.
End AccessRequestSpecV3.

Module AccessRequestV3.
Record t : Type := mk {
  Kind : string;
  Version : string;
  Metadata_Name : string;
  Spec : AccessRequestSpecV3.t
}.
Definition set_Spec (f : AccessRequestSpecV3.t → AccessRequestSpecV3.t) (r : t) : t :=
  mk (Kind r) (Version r) (Metadata_Name r) (f (Spec r)).

Definition GetUser (r : t) : string := AccessRequestSpecV3.User (Spec r).
Definition GetRoles (r : t) : list string := AccessRequestSpecV3.Roles (Spec r).
Definition SetRoles (roles : list string) (r : t) : t :=
  set_Spec (AccessRequestSpecV3.set_Roles roles) r.
Definition GetState (r : t) : RequestState := AccessRequestSpecV3.State (Spec r).
Definition GetRequestReason (r : t) : string := AccessRequestSpecV3.RequestReason (Spec r).
Definition GetSystemAnnotations (r : t) : gmap string (list string) :=
  AccessRequestSpecV3.SystemAnnotations (Spec r).
Definition SetSystemAnnotations (annotations : gmap string (list string)) (r : t) : t :=
  set_Spec (AccessRequestSpecV3.set_SystemAnnotations annotations) r.

Definition SetState (state : RequestState) : M t unit :=
  r ← get;
  if IsDenied (AccessRequestSpecV3.State (Spec r)) then
    if IsDenied state then mret tt
    else throw (BadParameter "cannot set request-state %q (already denied)"
                             [RequestState_String state])
  else modify (set_Spec (AccessRequestSpecV3.set_State state)).
End AccessRequestV3.

(** ** Roles, users and the lookup interface *)

Definition RequestStrategyOptional : string := "optional".
Definition RequestStrategyReason : string := "reason".
Definition RequestStrategyAlways : string := "always".

Inductive RoleConditionType : Type := Allow | Deny.

Module ClaimMapping.
Record t : Type := mk { Claim : string; Value : string; Roles : list string }.
End ClaimMapping.

Module TraitMapping.
Record t : Type := mk { Trait : string; Value : string; Roles : list string }.
End TraitMapping.

Definition TraitMappingSet : Type := list TraitMapping.t.

Module AccessRequestConditions.
Record t : Type := mk {
  Roles : list string;
  ClaimsToRoles : list ClaimMapping.t;
  Annotations : gmap string (list string)
}.

Definition GetTraitMappings (c : t) : TraitMappingSet :=
  foldl (λ tm mapping,
           tm ++ [TraitMapping.mk (ClaimMapping.Claim mapping)
                                  (ClaimMapping.Value mapping)
                                  (ClaimMapping.Roles mapping)])
        [] (ClaimsToRoles c).
End AccessRequestConditions.

(** The [Role] and [User] interfaces, as far as validation calls them. *)
Module Role.
Record t : Type := mk {
  GetName : string;
  RequestAccess : string;   (* GetOptions().RequestAccess *)
  GetAccessRequestConditions : RoleConditionType → AccessRequestConditions.t
}.
End Role.

Module User.
Record t : Type := mk {
  GetRoles : list string;
  GetTraits : gmap string (list string)
}.
End User.

Module UserAndRoleGetter.
Record t : Type := mk {
  GetUser : string → bool → error + User.t;
  GetRole : string → error + Role.t;
  GetRoles : error + list Role.t
}.
End UserAndRoleGetter.

(** Modelled from the spec: [utils.SliceContainsStr] is not part of the
    sources at hand; it tells whether a slice holds a value, by exact string
    comparison. *)
Fixpoint SliceContainsStr (slice : list string) (value : string) : bool :=
  match slice with
  | [] => false
  | s :: rest => if bool_decide (s = value) then true else SliceContainsStr rest value
  end.

(** [m[k]] on a map of slices: the nil slice when the key is absent.  A nil
    map reads like an empty one, and is embedded as [∅]. *)
Definition at_key (m : gmap string (list string)) (k : string) : list string :=
  default [] (m !! k).

(** Run [body] on fresh local variables; an error of the body is returned,
    otherwise the locals as the body leaves them. *)
Definition with_locals {S L} (init : L) (body : M L unit) : M S L :=
  λ s, match body init with
       | (_, inl err) => (s, inl err)
       | (locals, inr _) => (s, inr locals)
       end.

(** ** The policy aggregator and the validation routine

    The pattern matcher ([parse.Matcher], [parse.NewMatcher]), the expansion of
    trait mappings ([TraitMappingSet.TraitsToRoles]) and the interpolation of
    annotation templates ([applyValueTraits]) live in other packages; the
    development is parametric in them. *)

Section Validator.

Variable Matcher : Type.
Variable NewMatcher : string → error + Matcher.
Variable Match : Matcher → string → bool.
Variable TraitsToRoles : TraitMappingSet → gmap string (list string) → list string.
Variable applyValueTraits : string → gmap string (list string) → error + list string.

Record requestValidator : Type := mkValidator {
  traits : gmap string (list string);
  state : RequestState;
  Roles_Allow : list Matcher;
  Roles_Deny : list Matcher;
  Annotations_Allow : gmap string (list string);
  Annotations_Deny : gmap string (list string)
}.

Definition set_Roles_Allow (v : list Matcher) (m : requestValidator) :=
  mkValidator (traits m) (state m) v (Roles_Deny m) (Annotations_Allow m) (Annotations_Deny m).
Definition set_Roles_Deny (v : list Matcher) (m : requestValidator) :=
  mkValidator (traits m) (state m) (Roles_Allow m) v (Annotations_Allow m) (Annotations_Deny m).
Definition set_Annotations_Allow (v : gmap string (list string)) (m : requestValidator) :=
  mkValidator (traits m) (state m) (Roles_Allow m) (Roles_Deny m) v (Annotations_Deny m).
Definition set_Annotations_Deny (v : gmap string (list string)) (m : requestValidator) :=
  mkValidator (traits m) (state m) (Roles_Allow m) (Roles_Deny m) (Annotations_Allow m) v.

(** The annotation maps are made only for a pending request and stay nil
    otherwise; a nil map and an empty one are both [∅] here. *)
Definition newRequestValidator (traits : gmap string (list string)) (state : RequestState)
  : requestValidator :=
  let m := mkValidator traits state [] [] ∅ ∅ in
  if IsPending (state)
  then set_Annotations_Deny ∅ (set_Annotations_Allow ∅ m)
  else m.

(** The inner loops [Dval] and [Avals]: a template whose interpolation
    fails is passed over by [continue]. *)
Definition applyTemplates (templates : list string) (traits : gmap string (list string))
  : list string :=
  foldl (λ vals d,
           match applyValueTraits d traits with
           | inl _ => vals
           | inr applied => vals ++ applied
           end)
        [] templates.

Definition push (role : Role.t) : M requestValidator unit :=
  let deny := Role.GetAccessRequestConditions role Deny in
  let allow := Role.GetAccessRequestConditions role Allow in
  for_range (AccessRequestConditions.Roles deny) (λ d,
    md ← try_wrap (NewMatcher d);
    modify (λ m, set_Roles_Deny (Roles_Deny m ++ [md]) m));;
  m ← get;
  for_range (TraitsToRoles (AccessRequestConditions.GetTraitMappings deny) (traits m)) (λ d,
    md ← try_wrap (NewMatcher d);
    modify (λ m, set_Roles_Deny (Roles_Deny m ++ [md]) m));;
  m ← get;
  (if IsPending (state m) then
     for_range (map_to_list (AccessRequestConditions.Annotations deny)) (λ '(kd, vd),
       modify (λ m,
         let vals := applyTemplates vd (traits m) in
         set_Annotations_Deny (<[kd := at_key (Annotations_Deny m) kd ++ vals]> (Annotations_Deny m)) m))
   else mret tt);;
  for_range (AccessRequestConditions.Roles allow) (λ a,
    ma ← try_wrap (NewMatcher a);
    modify (λ m, set_Roles_Allow (Roles_Allow m ++ [ma]) m));;
  m ← get;
  for_range (TraitsToRoles (AccessRequestConditions.GetTraitMappings allow) (traits m)) (λ a,
    ma ← try_wrap (NewMatcher a);
    modify (λ m, set_Roles_Allow (Roles_Allow m ++ [ma]) m));;
  m ← get;
  (if IsPending (state m) then
     for_range (map_to_list (AccessRequestConditions.Annotations allow)) (λ '(ka, va),
       modify (λ m,
         let vals := applyTemplates va (traits m) in
         set_Annotations_Allow (<[ka := at_key (Annotations_Allow m) ka ++ vals]> (Annotations_Allow m)) m))
   else mret tt).

(** [for _, x := range ms { if x.Match(name) { return ... } }]: whether the
    loop returns from its body. *)
Fixpoint matches_some (ms : list Matcher) (name : string) : bool :=
  match ms with
  | [] => false
  | x :: rest => if Match x name then true else matches_some rest name
  end.

Definition CanRequestRole (m : requestValidator) (name : string) : bool :=
  if matches_some (Roles_Deny m) name then false
  else if matches_some (Roles_Allow m) name then true
  else false.

(** The body of the loop of [SystemAnnotations], for the entry [(k, va)]. *)
Definition SystemAnnotations_body (m : requestValidator)
    (annotations : gmap string (list string)) (entry : string * list string)
  : gmap string (list string) :=
  let '(k, va) := entry in
  let filtered :=
    foldl (λ filtered v,
             if negb (SliceContainsStr (at_key (Annotations_Deny m) k) v)
             then filtered ++ [v] else filtered)
          [] va in
  if bool_decide (length filtered = 0) then annotations
  else <[k := filtered]> annotations.

Definition SystemAnnotations_range (m : requestValidator)
    (entries : list (string * list string)) : gmap string (list string) :=
  foldl (SystemAnnotations_body m) ∅ entries.

Definition SystemAnnotations (m : requestValidator) : gmap string (list string) :=
  SystemAnnotations_range m (map_to_list (Annotations_Allow m)).

(** The loop of [ValidateAccessRequest] over the roles the user holds; its
    variables are the aggregator and [requireReason]. *)
Definition push_held_roles (getter : UserAndRoleGetter.t) (roleNames : list string)
  : M (requestValidator * bool) unit :=
  for_range roleNames (λ roleName,
    role ← try_wrap (UserAndRoleGetter.GetRole getter roleName);
    wrapped (zoom fst (λ v l, (v, l.2)) (push role));;
    if bool_decide (Role.RequestAccess role = RequestStrategyReason)
    then modify (λ l, (l.1, true))
    else mret tt).

Definition ValidateAccessRequest (getter : UserAndRoleGetter.t) (expandRoles : bool)
  : M AccessRequestV3.t unit :=
  req ← get;
  user ← try_wrap (UserAndRoleGetter.GetUser getter (AccessRequestV3.GetUser req) false);
  locals ← with_locals
    (newRequestValidator (User.GetTraits user) (AccessRequestV3.GetState req), false)
    (push_held_roles getter (User.GetRoles user));
  let validator := locals.1 in
  let requireReason := locals.2 in
  (if requireReason && bool_decide (AccessRequestV3.GetRequestReason req = "")
   then throw (BadParameter "request reason must be specified" [])
   else mret tt);;
  (let r := AccessRequestV3.GetRoles req in
   if bool_decide (length r = 1) && bool_decide (r !! 0 = Some "*") then
     if negb expandRoles
     then throw (BadParameter "unexpected wildcard access request" [])
     else
       allRoles ← try_wrap (UserAndRoleGetter.GetRoles getter);
       let held : gmap string bool :=
         foldl (λ held roleName, <[roleName := true]> held) ∅ (User.GetRoles user) in
       let expanded :=
         foldl (λ expanded role,
                  let n := Role.GetName role in
                  if negb (default false (held !! n)) && CanRequestRole validator n
                  then expanded ++ [n] else expanded)
               [] allRoles in
       modify (AccessRequestV3.SetRoles expanded)
   else mret tt);;
  req ← get;
  for_range (AccessRequestV3.GetRoles req) (λ roleName,
    if negb (CanRequestRole validator roleName)
    then throw (BadParameter "user %q cannot request/assume role %q"
                             [AccessRequestV3.GetUser req; roleName])
    else mret tt);;
  req ← get;
  if IsPending (AccessRequestV3.GetState req)
  then modify (AccessRequestV3.SetSystemAnnotations (SystemAnnotations validator))
  else mret tt.

End Validator.

Arguments mkValidator {Matcher}.
Arguments traits {Matcher}.
Arguments state {Matcher}.
Arguments Roles_Allow {Matcher}.
Arguments Roles_Deny {Matcher}.
Arguments Annotations_Allow {Matcher}.
Arguments Annotations_Deny {Matcher}.
Arguments set_Roles_Allow {Matcher}.
Arguments set_Roles_Deny {Matcher}.
Arguments set_Annotations_Allow {Matcher}.
Arguments set_Annotations_Deny {Matcher}.
Arguments push {Matcher}.
Arguments push_held_roles {Matcher}.
Arguments matches_some {Matcher}.
Arguments CanRequestRole {Matcher}.
Arguments SystemAnnotations_body {Matcher}.
Arguments SystemAnnotations_range {Matcher}.
Arguments SystemAnnotations {Matcher}.
Arguments ValidateAccessRequest {Matcher}.

(** ** Vocabulary of the statements *)

(** The values of [va] that the deny list does not hold, in their order. *)
Definition not_denied (deny va : list string) : list string :=
  filter (λ v, v ∉ deny) va.

(** What [SystemAnnotations] holds under key [k], given the allow and deny
    accumulators. *)
Definition annotations_at (allow deny : gmap string (list string)) (k : string)
  : option (list string) :=
  match allow !! k with
  | None => None
  | Some va =>
      match not_denied (at_key deny k) va with
      | [] => None
      | filtered => Some filtered
      end
  end.

(** The state that [Parse] finds for a string: the first variant that prints
    as it. *)
Definition state_named (val : string) : option RequestState :=
  snd <$> list_find (λ s, RequestState_String s = val) stateVariants.

(** The filter that [FromMap] leaves, started on [f0], when no entry of the
    map [m] is rejected. *)
Definition decoded (m : gmap string string) (f0 : AccessRequestFilter.t)
  : AccessRequestFilter.t :=
  AccessRequestFilter.mk
    (default (AccessRequestFilter.ID f0) (m !! keyID))
    (default (AccessRequestFilter.User f0) (m !! keyUser))
    (default (AccessRequestFilter.State f0) (m !! keyState ≫= state_named)).

(** What a loop returns that may have left with a failure. *)
Definition outcome (failure : option error) : error + unit :=
  match failure with
  | None => inr tt
  | Some err => inl err
  end.

Section Vocabulary.

Context {Matcher : Type}.
Variable NewMatcher : string → error + Matcher.
Variable Match : Matcher → string → bool.
Variable TraitsToRoles : TraitMappingSet → gmap string (list string) → list string.
Variable applyValueTraits : string → gmap string (list string) → error + list string.

(** The matchers that a loop over [patterns] appends before it either ends
    or leaves with the error of a failed construction. *)
Fixpoint new_matchers (patterns : list string) : list Matcher * option error :=
  match patterns with
  | [] => ([], None)
  | p :: rest =>
      match NewMatcher p with
      | inl err => ([], Some (Wrap err))
      | inr md => let '(mds, failure) := new_matchers rest in (md :: mds, failure)
      end
  end.

(** The role-name patterns of one side of a role: its literal patterns, then
    those its trait mappings yield. *)
Definition role_patterns (c : AccessRequestConditions.t) (traits : gmap string (list string))
  : list string :=
  AccessRequestConditions.Roles c
  ++ TraitsToRoles (AccessRequestConditions.GetTraitMappings c) traits.

(** The values of the templates that interpolate, in order; a template that
    does not interpolate gives none. *)
Definition interpolated (templates : list string) (traits : gmap string (list string))
  : list string :=
  templates ≫= (λ d, match applyValueTraits d traits with
                     | inl _ => []
                     | inr applied => applied
                     end).

(** An accumulator after the annotations [added] of a role went into it. *)
Definition accumulated (acc added : gmap string (list string))
    (traits : gmap string (list string)) (k : string) : option (list string) :=
  match added !! k with
  | None => acc !! k
  | Some templates => Some (at_key acc k ++ interpolated templates traits)
  end.

(** An annotation accumulator after the loop over the [entries] of a role's
    annotations. *)
Definition add_annotations (traits : gmap string (list string))
    (acc : gmap string (list string)) (entries : list (string * list string))
  : gmap string (list string) :=
  foldl (λ acc '(k, templates),
           <[k := at_key acc k ++ applyTemplates applyValueTraits templates traits]> acc)
        acc entries.

(** [push] in closed form: the receiver and the result it leaves. *)
Definition pushed (role : Role.t) (m : requestValidator Matcher)
  : requestValidator Matcher * (error + unit) :=
  let deny := Role.GetAccessRequestConditions role Deny in
  let allow := Role.GetAccessRequestConditions role Allow in
  let d := new_matchers (role_patterns deny (traits m)) in
  let a := new_matchers (role_patterns allow (traits m)) in
  let m1 := set_Roles_Deny (Roles_Deny m ++ d.1) m in
  match d.2 with
  | Some err => (m1, inl err)
  | None =>
      let m2 :=
        if IsPending (state m)
        then set_Annotations_Deny
               (add_annotations (traits m) (Annotations_Deny m)
                  (map_to_list (AccessRequestConditions.Annotations deny))) m1
        else m1 in
      let m3 := set_Roles_Allow (Roles_Allow m ++ a.1) m2 in
      match a.2 with
      | Some err => (m3, inl err)
      | None =>
          (if IsPending (state m)
           then set_Annotations_Allow
                  (add_annotations (traits m) (Annotations_Allow m)
                     (map_to_list (AccessRequestConditions.Annotations allow))) m3
           else m3,
           inr tt)
      end
  end.

(** An interpolation that answers with no value where [applyValueTraits]
    fails. *)
Definition lenient (template : string) (traits : gmap string (list string))
  : error + list string :=
  match applyValueTraits template traits with
  | inl _ => inr []
  | inr applied => inr applied
  end.

(** The role names a wildcard request expands to. *)
Definition expansion (validator : requestValidator Matcher) (held : list string)
    (allRoles : list Role.t) : list string :=
  filter (λ n, (n ∉ held) ∧ (CanRequestRole Match validator n = true))
         (Role.GetName <$> allRoles).

(** The variables of [ValidateAccessRequest] before the loop over the held
    roles. *)
Definition initial_locals (user : User.t) (req : AccessRequestV3.t)
  : requestValidator Matcher * bool :=
  (newRequestValidator Matcher (User.GetTraits user) (AccessRequestV3.GetState req), false).

(** The request as a successful validation leaves it. *)
Definition annotated (validator : requestValidator Matcher) (req : AccessRequestV3.t)
  : AccessRequestV3.t :=
  if IsPending (AccessRequestV3.GetState req)
  then AccessRequestV3.SetSystemAnnotations (SystemAnnotations validator) req
  else req.

(** The last two steps of [ValidateAccessRequest] in closed form: the first
    requested role that may not be requested is reported, and without one the
    request is annotated. *)
Definition checked (validator : requestValidator Matcher) (req : AccessRequestV3.t)
  : AccessRequestV3.t * (error + unit) :=
  match list_find (λ n, CanRequestRole Match validator n = false)
                  (AccessRequestV3.GetRoles req) with
  | Some (_, roleName) =>
      (req, inl (BadParameter "user %q cannot request/assume role %q"
                              [AccessRequestV3.GetUser req; roleName]))
  | None => (annotated validator req, inr tt)
  end.

(** [ValidateAccessRequest] in closed form, from the point where the user is
    loaded and the held roles are pushed. *)
Definition validated (getter : UserAndRoleGetter.t) (expandRoles : bool) (user : User.t)
    (validator : requestValidator Matcher) (requireReason : bool) (req : AccessRequestV3.t)
  : AccessRequestV3.t * (error + unit) :=
  if requireReason && bool_decide (AccessRequestV3.GetRequestReason req = "")
  then (req, inl (BadParameter "request reason must be specified" []))
  else if bool_decide (AccessRequestV3.GetRoles req = ["*"]) then
    if expandRoles then
      match UserAndRoleGetter.GetRoles getter with
      | inl err => (req, inl (Wrap err))
      | inr allRoles =>
          checked validator
            (AccessRequestV3.SetRoles (expansion validator (User.GetRoles user) allRoles) req)
      end
    else (req, inl (BadParameter "unexpected wildcard access request" []))
  else checked validator req.

End Vocabulary.

(** ** Further methods of the request types

    [uuid.Parse] belongs to an external package; the methods that call it take
    as [uuid_Parse] whether it returns a UUID for a string. *)

Module RequestIDs.
Record t : Type := mk { AccessRequests : list string }.

Definition Check (uuid_Parse : string → bool) : M t unit :=
  r ← get;
  for_range (AccessRequests r) (λ id,
    if negb (uuid_Parse id)
    then throw (BadParameter "invalid request id %q" [id])
    else mret tt).

Definition IsEmpty (r : t) : bool := bool_decide (length (AccessRequests r) < 1).
End RequestIDs.

Module Filter.
Definition Match (f : AccessRequestFilter.t) (req : AccessRequestV3.t) : bool :=
  if negb (bool_decide (AccessRequestFilter.ID f = ""))
     && negb (bool_decide (AccessRequestV3.Metadata_Name req = AccessRequestFilter.ID f))
  then false
  else if negb (bool_decide (AccessRequestFilter.User f = ""))
          && negb (bool_decide (AccessRequestV3.GetUser req = AccessRequestFilter.User f))
  then false
  else if negb (IsNone (AccessRequestFilter.State f))
          && negb (bool_decide (AccessRequestV3.GetState req = AccessRequestFilter.State f))
  then false
  else true.
End Filter.

(** [GetAccessRequest], with the [GetAccessRequests] method of the store it is
    given. *)
Definition GetAccessRequest
    (GetAccessRequests : AccessRequestFilter.t → error + list AccessRequestV3.t)
    (reqID : string) : error + AccessRequestV3.t :=
  match GetAccessRequests (AccessRequestFilter.mk reqID "" 0%Z) with
  | inl err => inl (Wrap err)
  | inr reqs =>
      if bool_decide (length reqs < 1)
      then inl (NotFound "no access request matching %q" [reqID])
      else match reqs with
           | first :: _ => inr first
           | [] => inl (NotFound "no access request matching %q" [reqID])
           end
  end.

Module Request.

Definition GetName (r : AccessRequestV3.t) : string := AccessRequestV3.Metadata_Name r.

Definition set_Metadata (v : string) (r : AccessRequestV3.t) : AccessRequestV3.t :=
  AccessRequestV3.mk (AccessRequestV3.Kind r) (AccessRequestV3.Version r) v
                     (AccessRequestV3.Spec r).

Definition GetResolveReason (r : AccessRequestV3.t) : string :=
  AccessRequestSpecV3.ResolveReason (AccessRequestV3.Spec r).
Definition GetResolveAnnotations (r : AccessRequestV3.t) : gmap string (list string) :=
  AccessRequestSpecV3.ResolveAnnotations (AccessRequestV3.Spec r).

Definition Check (uuid_Parse : string → bool) : M AccessRequestV3.t unit :=
  r ← get;
  if bool_decide (AccessRequestV3.Kind r = "")
  then throw (BadParameter "access request kind not set" [])
  else if bool_decide (AccessRequestV3.Version r = "")
  then throw (BadParameter "access request version not set" [])
  else if bool_decide (GetName r = "")
  then throw (BadParameter "access request id not set" [])
  else if negb (uuid_Parse (GetName r))
  then throw (BadParameter "invalid access request id %q" [GetName r])
  else if bool_decide (AccessRequestV3.GetUser r = "")
  then throw (BadParameter "access request user name not set" [])
  else if bool_decide (length (AccessRequestV3.GetRoles r) < 1)
  then throw (BadParameter "access request does not specify any roles" [])
  else if IsPending (AccessRequestV3.GetState r) then
    if negb (bool_decide (GetResolveReason r = ""))
    then throw (BadParameter "pending requests cannot include resolve reason" [])
    else if negb (bool_decide (size (GetResolveAnnotations r) = 0))
    then throw (BadParameter "pending requests cannot include resolve annotations" [])
    else mret tt
  else mret tt.

(** The metadata of a request is kept as its name; [Metadata.CheckAndSetDefaults]
    lives in another file and is taken as [checkMetadata]. *)
Definition CheckAndSetDefaults (checkMetadata : M string unit) (uuid_Parse : string → bool)
  : M AccessRequestV3.t unit :=
  wrapped (zoom AccessRequestV3.Metadata_Name set_Metadata checkMetadata);;
  r ← get;
  (if IsNone (AccessRequestV3.GetState r)
   then wrapped (AccessRequestV3.SetState RequestState_PENDING)
   else mret tt);;
  wrapped (Check uuid_Parse).

(** [NewAccessRequest]; the constants [KindAccessRequest] and [V3] and the
    identifier that [uuid.New] returns are arguments. *)
Definition NewAccessRequest (KindAccessRequest V3 : string) (uuid_New : string)
    (checkMetadata : M string unit) (uuid_Parse : string → bool)
    (user : string) (roles : list string) : error + AccessRequestV3.t :=
  let req :=
    AccessRequestV3.mk KindAccessRequest V3 uuid_New
      (AccessRequestSpecV3.mk user roles RequestState_PENDING 0 0 "" "" ∅ ∅) in
  match CheckAndSetDefaults checkMetadata uuid_Parse req with
  | (_, inl err) => inl (Wrap err)
  | (req', inr _) => inr req'
  end.

(** The loop of [AccessRequestSpecV3.Equals] over the roles, from index [i];
    [None] stands for an index out of range. *)
Fixpoint roles_equal_from (i : nat) (roles other : list string) : option bool :=
  match roles with
  | [] => Some true
  | role :: rest =>
      match other !! i with
      | None => None
      | Some o =>
          if negb (bool_decide (role = o)) then Some false
          else roles_equal_from (S i) rest other
      end
  end.

Definition SpecEquals (s other : AccessRequestSpecV3.t) : option bool :=
  if negb (bool_decide (AccessRequestSpecV3.User s = AccessRequestSpecV3.User other))
  then Some false
  else if negb (bool_decide (length (AccessRequestSpecV3.Roles s)
                             = length (AccessRequestSpecV3.Roles other)))
  then Some false
  else
    match roles_equal_from 0 (AccessRequestSpecV3.Roles s) (AccessRequestSpecV3.Roles other) with
    | None => None
    | Some false => Some false
    | Some true =>
        if negb (bool_decide (AccessRequestSpecV3.Created s = AccessRequestSpecV3.Created other))
        then Some false
        else if negb (bool_decide (AccessRequestSpecV3.Expires s
                                   = AccessRequestSpecV3.Expires other))
        then Some false
        else Some (bool_decide (AccessRequestSpecV3.State s = AccessRequestSpecV3.State other))
    end.

(** [AccessRequestV3] is the one implementation of [AccessRequest], so the
    type assertion on [other] holds. *)
Definition Equals (r other : AccessRequestV3.t) : option bool :=
  if negb (bool_decide (GetName r = GetName other)) then Some false
  else SpecEquals (AccessRequestV3.Spec r) (AccessRequestV3.Spec other).

End Request.

(** ** The [tctl requests] command: resolution attributes

    [strings.Split] and [strings.Index] for a one-byte separator, on strings as
    byte sequences; [strings.TrimSpace] is taken as [TrimSpace]. *)

Module Tctl.

Import Stdlib.Strings.Ascii.

Fixpoint Split_from (sep : Ascii.ascii) (s : string) (segment : string) : list string :=
  match s with
  | EmptyString => [segment]
  | String c rest =>
      if bool_decide (c = sep) then segment :: Split_from sep rest ""
      else Split_from sep rest (segment +:+ String c "")
  end.

Definition Split (s : string) (sep : Ascii.ascii) : list string := Split_from sep s "".

Fixpoint Index_from (sep : Ascii.ascii) (s : string) (i : Z) : Z :=
  match s with
  | EmptyString => (-1)%Z
  | String c rest => if bool_decide (c = sep) then i else Index_from sep rest (i + 1)%Z
  end.

Definition Index (s : string) (sep : Ascii.ascii) : Z := Index_from sep s 0%Z.

(** [s[lo:hi]] for [0 <= lo <= hi <= len(s)]. *)
Definition slice (s : string) (lo hi : Z) : string :=
  String.substring (Z.to_nat lo) (Z.to_nat (hi - lo)) s.

Definition comma : Ascii.ascii := ","%char.
Definition equals_sign : Ascii.ascii := "="%char.

(** The body of the loop of [splitAttrs], for the segment [s]. *)
Definition splitAttrs_body (TrimSpace : string → string) (s : string)
  : M (gmap string string) unit :=
  if bool_decide (s = "") then mret tt
  else
    let idx := Index s equals_sign in
    if bool_decide (idx < 1)%Z
    then throw (BadParameter "invalid key-value pair: %q" [s])
    else
      let key := TrimSpace (slice s 0 idx) in
      let val := TrimSpace (slice s (idx + 1) (Z.of_nat (String.length s))) in
      if bool_decide (key = "") then throw (BadParameter "empty attr key" [])
      else if bool_decide (val = "") then throw (BadParameter "empty sttr val" [])
      else modify (λ attrs, <[key := val]> attrs).

Definition splitAttrs (TrimSpace : string → string) (attrs_flag : string)
  : error + gmap string string :=
  let loop : M (gmap string string) unit :=
    for_range (Split attrs_flag comma) (splitAttrs_body TrimSpace) in
  match loop ∅ with
  | (_, inl err) => inl err
  | (attrs, inr _) => inr attrs
  end.

End Tctl.

(** ** A small instance of the collaborators

    Used to run the definitions above on concrete inputs: matchers for literal
    patterns and for globs with a trailing star, no trait mappings, and
    templates that are either literal or of the form [{{external.name}}],
    which expand to the values bound to [name] and fail when [name] is
    unbound. *)

Module Plain.

Inductive Matcher : Type :=
  | Literal (s : string)
  | Prefix (s : string).

Fixpoint strip_prefix (p s : string) : option string :=
  match p with
  | EmptyString => Some s
  | String a p' =>
      match s with
      | EmptyString => None
      | String b s' => if bool_decide (a = b) then strip_prefix p' s' else None
      end
  end.

Definition strip_suffix (p s : string) : option string :=
  String.rev <$> strip_prefix (String.rev p) (String.rev s).

Definition NewMatcher (pattern : string) : error + Matcher :=
  match strip_suffix "*" pattern with
  | Some stem => inr (Prefix stem)
  | None => inr (Literal pattern)
  end.

Definition Match (m : Matcher) (name : string) : bool :=
  match m with
  | Literal s => bool_decide (s = name)
  | Prefix s => bool_decide (is_Some (strip_prefix s name))
  end.

Definition TraitsToRoles (ms : TraitMappingSet) (traits : gmap string (list string))
  : list string := [].

Definition applyValueTraits (template : string) (traits : gmap string (list string))
  : error + list string :=
  match strip_prefix "{{external." template with
  | None => inr [template]
  | Some rest =>
      match strip_suffix "}}" rest with
      | None => inr [template]
      | Some name =>
          match traits !! name with
          | Some vals => inr vals
          | None => inl (NotFound "variable %q is not found" [name])
          end
      end
  end.

Definition push := push NewMatcher TraitsToRoles applyValueTraits.
Definition CanRequestRole := CanRequestRole Match.
Definition SystemAnnotations := @SystemAnnotations Matcher.
Definition ValidateAccessRequest :=
  ValidateAccessRequest NewMatcher Match TraitsToRoles applyValueTraits.

(** Sample data: the roles, users and requests of the design document's
    scenarios. *)
Definition conditions (roles : list string) (annotations : gmap string (list string))
  : AccessRequestConditions.t :=
  AccessRequestConditions.mk roles [] annotations.

Definition role (name strategy : string) (allow deny : AccessRequestConditions.t) : Role.t :=
  Role.mk name strategy (λ rct, match rct with Allow => allow | Deny => deny end).

Definition no_conditions : AccessRequestConditions.t := conditions [] ∅.

Definition getter (users : gmap string User.t) (catalogue : list Role.t)
  : UserAndRoleGetter.t :=
  UserAndRoleGetter.mk
    (λ name _, match users !! name with
               | Some u => inr u
               | None => inl (NotFound "user %q is not found" [name])
               end)
    (λ name, match list_find (λ r, Role.GetName r = name) catalogue with
             | Some (_, r) => inr r
             | None => inl (NotFound "role %s is not found" [name])
             end)
    (inr catalogue).

Definition request (user : string) (roles : list string) (state : RequestState)
    (reason : string) : AccessRequestV3.t :=
  AccessRequestV3.mk "access_request" "v3" "request-1"
    (AccessRequestSpecV3.mk user roles state 0 0 reason "" ∅ ∅).

Definition base : Role.t :=
  role "base" RequestStrategyOptional (conditions ["dev-*"] ∅) (conditions ["dev-secret"] ∅).
Definition base_reason : Role.t :=
  role "base" RequestStrategyReason (conditions ["dev-*"] ∅) no_conditions.
Definition dev_infra : Role.t :=
  role "dev-infra" RequestStrategyOptional no_conditions no_conditions.
Definition dev_secret : Role.t :=
  role "dev-secret" RequestStrategyOptional no_conditions no_conditions.
Definition team_role : Role.t :=
  role "team" RequestStrategyOptional
    (conditions ["dev-*"] {[ "team" := ["{{external.team}}"; "{{external.squad}}"] ]})
    no_conditions.
Definition team_deny : Role.t :=
  role "team-deny" RequestStrategyOptional no_conditions
    (conditions [] {[ "team" := ["infra"] ]}).

Definition alice (roles : list string) : gmap string User.t :=
  {[ "alice" := User.mk roles {[ "team" := ["infra"] ]} ]}.

(** [alice] holds [base], which asks for a request reason. *)
Definition reason_getter : UserAndRoleGetter.t :=
  getter (alice ["base"]) [base_reason; dev_infra].

(** [alice] holds [base] and a role [ghost] that no longer exists. *)
Definition ghost_getter : UserAndRoleGetter.t :=
  getter (alice ["base"; "ghost"]) [base_reason; dev_infra].

(** [alice] holds [base], which allows [dev-*] and denies [dev-secret]. *)
Definition base_getter : UserAndRoleGetter.t :=
  getter (alice ["base"]) [dev_infra; dev_secret; base].

Definition wildcard_request (reason : string) : AccessRequestV3.t :=
  request "alice" ["*"] RequestState_PENDING reason.

Definition pending_validator : requestValidator Matcher :=
  newRequestValidator Matcher {[ "team" := ["infra"] ]} RequestState_PENDING.

End Plain.

(** ** Further vocabulary and sample data *)

(** A caller that sets one state after the other and goes on after an
    error. *)
Definition set_states (targets : list RequestState) (r : AccessRequestV3.t)
  : AccessRequestV3.t :=
  foldl (λ r target, (AccessRequestV3.SetState target r).1) r targets.

Definition state_names : list string := ["NONE"; "PENDING"; "APPROVED"; "DENIED"].

(** Where an entry of the result comes from. *)
Definition from_segment (TrimSpace : string → string) (segments : list string)
    (k v : string) : Prop :=
  k ≠ "" ∧ v ≠ ""
  ∧ ∃ s, s ∈ segments
         ∧ (1 ≤ Tctl.Index s Tctl.equals_sign)%Z
         ∧ k = TrimSpace (Tctl.slice s 0 (Tctl.Index s Tctl.equals_sign))
         ∧ v = TrimSpace (Tctl.slice s (Tctl.Index s Tctl.equals_sign + 1)
                            (Z.of_nat (String.length s))).

Module More.

Import Stdlib.Strings.Ascii.

(** A store that answers [GetAccessRequests] with the requests it holds that
    match the filter. *)
Definition store (held : list AccessRequestV3.t) (f : AccessRequestFilter.t)
  : error + list AccessRequestV3.t :=
  inr (List.filter (Filter.Match f) held).

Definition named (name user : string) (state : RequestState) : AccessRequestV3.t :=
  AccessRequestV3.mk "access_request" "v3" name
    (AccessRequestSpecV3.mk user ["dev-infra"] state 0 0 "" "" ∅ ∅).

(** A user without roles. *)
Definition bare_getter : UserAndRoleGetter.t :=
  Plain.getter (Plain.alice []) [Plain.dev_infra; Plain.base].

(** A metadata check that wants a name, and an identifier check that accepts
    the names of 36 bytes. *)
Definition checkMetadata : M string unit :=
  λ name, if bool_decide (name = "") then (name, inl (BadParameter "missing parameter Name" []))
          else (name, inr tt).

Definition uuid_Parse (id : string) : bool := bool_decide (String.length id = 36).

Definition an_id : string := "6ba7b810-9dad-11d1-80b4-00c04fd430c8".

(** Matchers as in [Plain], but a pattern that starts with a caret is taken
    for a regular expression that does not parse. *)
Definition strict_NewMatcher (pattern : string) : error + Plain.Matcher :=
  match Plain.strip_prefix "^" pattern with
  | Some _ => inl (BadParameter "failed parsing regexp %q" [pattern])
  | None => Plain.NewMatcher pattern
  end.

Definition broken_role : Role.t :=
  Plain.role "broken" RequestStrategyOptional
    (Plain.conditions ["dev-*"; "^(prod"] ∅) (Plain.conditions ["dev-secret"] ∅).

Definition denying_validator : requestValidator Plain.Matcher :=
  (Plain.push Plain.base Plain.pending_validator).1.

(** A request that still has no state. *)
Definition stateless : AccessRequestV3.t :=
  AccessRequestV3.mk "access_request" "v3" an_id
    (AccessRequestSpecV3.mk "alice" ["dev-infra"] RequestState_NONE 0 0 "" "" ∅ ∅).

Definition storable (roles : list string) : AccessRequestV3.t :=
  AccessRequestV3.mk "access_request" "v3" an_id
    (AccessRequestSpecV3.mk "alice" roles RequestState_PENDING 0 0 "" "" ∅ ∅).

(** [strings.TrimSpace] on the blanks of the samples: leading and trailing
    spaces go. *)
Fixpoint trim_left (s : string) : string :=
  match s with
  | String c rest => if bool_decide (c = " "%char) then trim_left rest else s
  | EmptyString => EmptyString
  end.

Definition TrimSpace (s : string) : string :=
  String.rev (trim_left (String.rev (trim_left s))).

End More.

(** * Properties *)

(** ** The scenarios of the design document *)

Example scenario_1 :
  Plain.ValidateAccessRequest
    (Plain.getter (Plain.alice ["base"]) [Plain.base; Plain.dev_infra; Plain.dev_secret]) false
    (Plain.request "alice" ["dev-infra"] RequestState_PENDING "")
  = (Plain.request "alice" ["dev-infra"] RequestState_PENDING "", inr tt).
Proof. vm_compute. reflexivity. Qed.

Example scenario_2 :
  (Plain.ValidateAccessRequest
    (Plain.getter (Plain.alice ["base"]) [Plain.dev_infra; Plain.dev_secret; Plain.base]) true
    (Plain.request "alice" ["*"] RequestState_PENDING ""))
  = (Plain.request "alice" ["dev-infra"] RequestState_PENDING "", inr tt).
Proof. vm_compute. reflexivity. Qed.

Example scenario_4 :
  AccessRequestV3.GetSystemAnnotations
   (Plain.ValidateAccessRequest
    (Plain.getter (Plain.alice ["team"]) [Plain.team_role; Plain.dev_infra]) true
    (Plain.request "alice" ["dev-infra"] RequestState_PENDING "")).1
  = {[ "team" := ["infra"] ]}.
Proof. vm_compute. reflexivity. Qed.

Example scenario_5 :
  AccessRequestV3.GetSystemAnnotations
   (Plain.ValidateAccessRequest
    (Plain.getter (Plain.alice ["team"; "team-deny"]) [Plain.team_role; Plain.team_deny; Plain.dev_infra]) true
    (Plain.request "alice" ["dev-infra"] RequestState_PENDING "")).1
  = ∅.
Proof. vm_compute. reflexivity. Qed.

(** ** Request states *)

Lemma IsDenied_true (s : RequestState) : IsDenied s = true ↔ s = RequestState_DENIED.
Proof. unfold IsDenied. apply bool_decide_eq_true. Qed.

Lemma IsDenied_false (s : RequestState) : IsDenied s = false ↔ s ≠ RequestState_DENIED.
Proof. unfold IsDenied. apply bool_decide_eq_false. Qed.

(** C4. On a request whose state is DENIED, [SetState] with target DENIED
    returns no error and leaves the request as it is; with any other target
    it returns a BadParameter error and leaves the request, hence its state,
    unchanged.  So it succeeds exactly when the target is DENIED. *)
Theorem SetState_once_denied (r : AccessRequestV3.t) (target : RequestState) :
  AccessRequestV3.GetState r = RequestState_DENIED →
  (target = RequestState_DENIED → AccessRequestV3.SetState target r = (r, inr tt))
  ∧ (target ≠ RequestState_DENIED →
     AccessRequestV3.SetState target r
     = (r, inl (BadParameter "cannot set request-state %q (already denied)"
                             [RequestState_String target])))
  ∧ (∀ r' res, AccessRequestV3.SetState target r = (r', res) →
       AccessRequestV3.GetState r' = RequestState_DENIED
       ∧ (res = inr tt ↔ target = RequestState_DENIED)
       ∧ (target ≠ RequestState_DENIED → ∃ err, res = inl err ∧ is_BadParameter err = true)).
Proof.
  intros Hden. unfold AccessRequestV3.GetState in Hden.
  assert (Hrun : AccessRequestV3.SetState target r
                 = (r, if IsDenied target then inr tt
                       else inl (BadParameter "cannot set request-state %q (already denied)"
                                              [RequestState_String target]))).
  { unfold AccessRequestV3.SetState, mbind, M_bind, bind, get; simpl.
    apply IsDenied_true in Hden. rewrite Hden.
    destruct (IsDenied target); reflexivity. }
  split; [|split].
  - intros ->. rewrite Hrun. reflexivity.
  - intros Hne. rewrite Hrun. apply IsDenied_false in Hne. rewrite Hne. reflexivity.
  - intros r' res. rewrite Hrun. intros [= <- <-]. split; [exact Hden|].
    destruct (IsDenied target) eqn:E.
    + apply IsDenied_true in E. split; [tauto|]. intros Hne. contradiction.
    + apply IsDenied_false in E. split.
      * split; [discriminate | intros; contradiction].
      * intros _. eexists. split; reflexivity.
Qed.

Lemma SetState_once_denied_witness :
  AccessRequestV3.SetState RequestState_APPROVED
    (Plain.request "alice" ["dev-infra"] RequestState_DENIED "")
  = (Plain.request "alice" ["dev-infra"] RequestState_DENIED "",
     inl (BadParameter "cannot set request-state %q (already denied)" ["APPROVED"])).
Proof.
  apply (SetState_once_denied
           (Plain.request "alice" ["dev-infra"] RequestState_DENIED "")
           RequestState_APPROVED); [reflexivity | discriminate].
Defined.

(** ** The aggregator's answer *)

Section ValidatorFacts.

Context {Matcher : Type}.
Variable NewMatcher : string → error + Matcher.
Variable Match : Matcher → string → bool.
Variable TraitsToRoles : TraitMappingSet → gmap string (list string) → list string.
Variable applyValueTraits : string → gmap string (list string) → error + list string.

Lemma matches_some_true (ms : list Matcher) (name : string) :
  matches_some Match ms name = true ↔ ∃ x, x ∈ ms ∧ Match x name = true.
Proof.
  induction ms as [|x ms IH]; simpl.
  - split; [discriminate|]. intros (x & Hx & _). inversion Hx.
  - destruct (Match x name) eqn:E.
    + split; [|reflexivity]. intros _. exists x. split; [left | exact E].
    + rewrite IH. split.
      * intros (y & Hy & Hm). exists y. split; [right; exact Hy | exact Hm].
      * intros (y & Hy & Hm). apply elem_of_cons in Hy as [-> | Hy].
        -- congruence.
        -- exists y. split; assumption.
Qed.

Lemma matches_some_app (ms1 ms2 : list Matcher) (name : string) :
  matches_some Match (ms1 ++ ms2) name
  = matches_some Match ms1 name || matches_some Match ms2 name.
Proof.
  induction ms1 as [|x ms1 IH]; simpl; [reflexivity|].
  destruct (Match x name); [reflexivity | exact IH].
Qed.

(** C1. Whatever the aggregator has accumulated (so in particular in every
    state reached by pushing roles): a name that some deny matcher matches
    cannot be requested, even when an allow matcher matches it too; a name
    that no deny matcher matches can be requested exactly when some allow
    matcher matches it, so a name that no allow matcher matches is denied. *)
Theorem CanRequestRole_deny_overrides (m : requestValidator Matcher) (name : string) :
  ((∃ d, d ∈ Roles_Deny m ∧ Match d name = true) →
     CanRequestRole Match m name = false)
  ∧ (¬ (∃ d, d ∈ Roles_Deny m ∧ Match d name = true) →
     (CanRequestRole Match m name = true ↔ ∃ a, a ∈ Roles_Allow m ∧ Match a name = true))
  ∧ (¬ (∃ a, a ∈ Roles_Allow m ∧ Match a name = true) →
     CanRequestRole Match m name = false).
Proof.
  unfold CanRequestRole.
  split; [|split].
  - intros Hd. apply matches_some_true in Hd. rewrite Hd. reflexivity.
  - intros Hnd. rewrite <- matches_some_true in Hnd.
    apply not_true_is_false in Hnd. rewrite Hnd.
    rewrite <- matches_some_true.
    destruct (matches_some Match (Roles_Allow m) name); split; congruence.
  - intros Hna. rewrite <- matches_some_true in Hna.
    apply not_true_is_false in Hna. rewrite Hna.
    destruct (matches_some Match (Roles_Deny m) name); reflexivity.
Qed.

(** ** System annotations *)

Lemma SliceContainsStr_true (slice : list string) (value : string) :
  SliceContainsStr slice value = true ↔ value ∈ slice.
Proof.
  induction slice as [|s rest IH]; simpl.
  - split; [discriminate | intros H; inversion H].
  - case_bool_decide as E.
    + subst. split; [intros _; left | reflexivity].
    + rewrite IH. rewrite elem_of_cons. split; [tauto|]. intros [->|H]; [contradiction | exact H].
Qed.

Lemma SliceContainsStr_false (slice : list string) (value : string) :
  SliceContainsStr slice value = false ↔ value ∉ slice.
Proof.
  rewrite <- SliceContainsStr_true. destruct (SliceContainsStr slice value); split; congruence.
Qed.

Lemma filter_loop (deny va acc : list string) :
  foldl (λ filtered v, if negb (SliceContainsStr deny v) then filtered ++ [v] else filtered)
        acc va
  = acc ++ not_denied deny va.
Proof.
  unfold not_denied. revert acc. induction va as [|v va IH]; intros acc; simpl.
  - rewrite app_nil_r. reflexivity.
  - rewrite IH. destruct (SliceContainsStr deny v) eqn:E; simpl.
    + apply SliceContainsStr_true in E. rewrite filter_cons_False; [reflexivity|]. tauto.
    + apply SliceContainsStr_false in E. rewrite filter_cons_True; [|exact E].
      rewrite <- app_assoc. reflexivity.
Qed.

Lemma SystemAnnotations_body_lookup (m : requestValidator Matcher)
    (acc : gmap string (list string)) (k0 : string) (va : list string) (k : string) :
  SystemAnnotations_body m acc (k0, va) !! k
  = if decide (k0 = k)
    then match not_denied (at_key (Annotations_Deny m) k) va with
         | [] => acc !! k
         | filtered => Some filtered
         end
    else acc !! k.
Proof.
  unfold SystemAnnotations_body. rewrite filter_loop. simpl.
  destruct (decide (k0 = k)) as [->|Hne].
  - destruct (not_denied (at_key (Annotations_Deny m) k) va) eqn:E; simpl; [reflexivity|].
    apply lookup_insert_eq.
  - case_bool_decide; [reflexivity|]. apply lookup_insert_ne. exact Hne.
Qed.

Lemma SystemAnnotations_fold_lookup (m : requestValidator Matcher)
    (entries : list (string * list string)) (acc : gmap string (list string)) (k : string) :
  NoDup entries.*1 →
  foldl (SystemAnnotations_body m) acc entries !! k
  = match (list_to_map entries : gmap string (list string)) !! k with
    | None => acc !! k
    | Some va =>
        match not_denied (at_key (Annotations_Deny m) k) va with
        | [] => acc !! k
        | filtered => Some filtered
        end
    end.
Proof.
  revert acc. induction entries as [|[k0 va0] rest IH]; intros acc Hnd.
  - simpl. rewrite lookup_empty. reflexivity.
  - rewrite fmap_cons in Hnd. apply NoDup_cons in Hnd as [Hk0 Hnd].
    cbn [foldl list_to_map foldr uncurry fst snd]. rewrite (IH _ Hnd).
    rewrite SystemAnnotations_body_lookup.
    destruct (decide (k0 = k)) as [->|Hne].
    + rewrite lookup_insert_eq. rewrite (not_elem_of_list_to_map_1 _ _ Hk0).
      reflexivity.
    + rewrite (lookup_insert_ne _ _ _ _ Hne). reflexivity.
Qed.

Lemma SystemAnnotations_range_lookup (m : requestValidator Matcher)
    (entries : list (string * list string)) (k : string) :
  NoDup entries.*1 →
  SystemAnnotations_range m entries !! k
  = annotations_at (list_to_map entries) (Annotations_Deny m) k.
Proof.
  intros Hnd. unfold SystemAnnotations_range, annotations_at.
  rewrite (SystemAnnotations_fold_lookup _ _ _ _ Hnd). rewrite lookup_empty.
  destruct (list_to_map entries !! k) as [va|]; [|reflexivity].
  destruct (not_denied (at_key (Annotations_Deny m) k) va); reflexivity.
Qed.

(** The order in which the loop visits the entries does not matter. *)
Lemma SystemAnnotations_any_order (m : requestValidator Matcher)
    (entries : list (string * list string)) :
  range_of (Annotations_Allow m) entries →
  SystemAnnotations_range m entries = SystemAnnotations m.
Proof.
  unfold range_of. intros Hperm.
  assert (Hnd : NoDup entries.*1).
  { rewrite Hperm. apply NoDup_fst_map_to_list. }
  apply map_eq. intros k. unfold SystemAnnotations.
  rewrite (SystemAnnotations_range_lookup _ _ _ Hnd).
  rewrite (SystemAnnotations_range_lookup _ _ _ (NoDup_fst_map_to_list _)).
  rewrite (list_to_map_proper _ _ Hnd Hperm). reflexivity.
Qed.

(** C3. Under every key of the allow accumulator, [SystemAnnotations] holds
    exactly the allow values of that key which the deny accumulator does not
    hold under the same key, and it omits the key when none is left; it has
    no other key.  Hence every key it returns has an allow value that the
    deny values do not cover. *)
Theorem SystemAnnotations_allow_minus_deny (m : requestValidator Matcher) (k : string) :
  SystemAnnotations m !! k
  = match Annotations_Allow m !! k with
    | None => None
    | Some va =>
        match filter (λ v, v ∉ at_key (Annotations_Deny m) k) va with
        | [] => None
        | filtered => Some filtered
        end
    end
  ∧ (∀ vs, SystemAnnotations m !! k = Some vs →
       ∃ v, v ∈ at_key (Annotations_Allow m) k ∧ v ∉ at_key (Annotations_Deny m) k).
Proof.
  assert (Heq : SystemAnnotations m !! k
                = annotations_at (Annotations_Allow m) (Annotations_Deny m) k).
  { unfold SystemAnnotations.
    rewrite (SystemAnnotations_range_lookup _ _ _ (NoDup_fst_map_to_list _)).
    rewrite list_to_map_to_list. reflexivity. }
  split; [exact Heq|].
  intros vs. rewrite Heq. unfold annotations_at, at_key, not_denied.
  destruct (Annotations_Allow m !! k) as [va|]; [|discriminate]. simpl.
  destruct (filter (λ v, v ∉ default [] (Annotations_Deny m !! k)) va) as [|v rest] eqn:E;
    [discriminate|].
  intros _. exists v.
  assert (Hin : v ∈ filter (λ v, v ∉ default [] (Annotations_Deny m !! k)) va).
  { rewrite E. left. }
  apply list_elem_of_filter in Hin as [Hnot Hin]. split; assumption.
Qed.

(** ** Pushing a role *)

Lemma for_range_app {S A} (l1 l2 : list A) (body : A → M S unit) (s : S) :
  for_range (l1 ++ l2) body s
  = match for_range l1 body s with
    | (s', inr _) => for_range l2 body s'
    | (s', inl err) => (s', inl err)
    end.
Proof.
  revert s. induction l1 as [|x l1 IH]; intros s; simpl; [reflexivity|].
  unfold mbind, M_bind, bind. destruct (body x s) as [s' [err|[]]]; [reflexivity|].
  apply IH.
Qed.

Lemma validator_eta (m : requestValidator Matcher) :
  mkValidator (traits m) (state m) (Roles_Allow m) (Roles_Deny m)
              (Annotations_Allow m) (Annotations_Deny m) = m.
Proof. destruct m; reflexivity. Qed.

Lemma deny_loop (patterns : list string) (m : requestValidator Matcher) :
  for_range patterns (λ d,
    md ← try_wrap (NewMatcher d);
    modify (λ m, set_Roles_Deny (Roles_Deny m ++ [md]) m)) m
  = (set_Roles_Deny (Roles_Deny m ++ (new_matchers NewMatcher patterns).1) m,
     outcome (new_matchers NewMatcher patterns).2).
Proof.
  revert m. induction patterns as [|p rest IH]; intros m; simpl.
  - unfold ret, set_Roles_Deny. rewrite app_nil_r, validator_eta. reflexivity.
  - unfold mbind, M_bind, bind, try_wrap.
    destruct (NewMatcher p) as [err|md]; simpl.
    + unfold throw, set_Roles_Deny. rewrite app_nil_r, validator_eta. reflexivity.
    + unfold ret, modify. rewrite IH.
      destruct (new_matchers NewMatcher rest) as [mds failure]; simpl.
      unfold set_Roles_Deny; simpl. rewrite <- app_assoc. reflexivity.
Qed.

Lemma allow_loop (patterns : list string) (m : requestValidator Matcher) :
  for_range patterns (λ a,
    ma ← try_wrap (NewMatcher a);
    modify (λ m, set_Roles_Allow (Roles_Allow m ++ [ma]) m)) m
  = (set_Roles_Allow (Roles_Allow m ++ (new_matchers NewMatcher patterns).1) m,
     outcome (new_matchers NewMatcher patterns).2).
Proof.
  revert m. induction patterns as [|p rest IH]; intros m; simpl.
  - unfold ret, set_Roles_Allow. rewrite app_nil_r, validator_eta. reflexivity.
  - unfold mbind, M_bind, bind, try_wrap.
    destruct (NewMatcher p) as [err|md]; simpl.
    + unfold throw, set_Roles_Allow. rewrite app_nil_r, validator_eta. reflexivity.
    + unfold ret, modify. rewrite IH.
      destruct (new_matchers NewMatcher rest) as [mds failure]; simpl.
      unfold set_Roles_Allow; simpl. rewrite <- app_assoc. reflexivity.
Qed.

Lemma deny_annotations_loop (entries : list (string * list string))
    (m : requestValidator Matcher) :
  for_range entries (λ '(kd, vd),
    modify (λ m,
      let vals := applyTemplates applyValueTraits vd (traits m) in
      set_Annotations_Deny
        (<[kd := at_key (Annotations_Deny m) kd ++ vals]> (Annotations_Deny m)) m)) m
  = (set_Annotations_Deny
       (add_annotations applyValueTraits (traits m) (Annotations_Deny m) entries) m,
     inr tt).
Proof.
  revert m. induction entries as [|[k vd] rest IH]; intros m; simpl.
  - unfold ret, set_Annotations_Deny. rewrite validator_eta. reflexivity.
  - unfold mbind, M_bind, bind, modify. rewrite IH. reflexivity.
Qed.

Lemma allow_annotations_loop (entries : list (string * list string))
    (m : requestValidator Matcher) :
  for_range entries (λ '(ka, va),
    modify (λ m,
      let vals := applyTemplates applyValueTraits va (traits m) in
      set_Annotations_Allow
        (<[ka := at_key (Annotations_Allow m) ka ++ vals]> (Annotations_Allow m)) m)) m
  = (set_Annotations_Allow
       (add_annotations applyValueTraits (traits m) (Annotations_Allow m) entries) m,
     inr tt).
Proof.
  revert m. induction entries as [|[k va] rest IH]; intros m; simpl.
  - unfold ret, set_Annotations_Allow. rewrite validator_eta. reflexivity.
  - unfold mbind, M_bind, bind, modify. rewrite IH. reflexivity.
Qed.

Lemma new_matchers_app (l1 l2 : list string) :
  new_matchers NewMatcher (l1 ++ l2)
  = match (new_matchers NewMatcher l1).2 with
    | Some err => ((new_matchers NewMatcher l1).1, Some err)
    | None => ((new_matchers NewMatcher l1).1 ++ (new_matchers NewMatcher l2).1,
               (new_matchers NewMatcher l2).2)
    end.
Proof.
  induction l1 as [|p l1 IH]; simpl.
  - destruct (new_matchers NewMatcher l2); reflexivity.
  - destruct (NewMatcher p) as [err|md]; [reflexivity|].
    rewrite IH. destruct (new_matchers NewMatcher l1) as [mds [err|]]; reflexivity.
Qed.

Lemma push_run (role : Role.t) (m : requestValidator Matcher) :
  push NewMatcher TraitsToRoles applyValueTraits role m
  = pushed NewMatcher TraitsToRoles applyValueTraits role m.
Proof.
  unfold push, pushed, role_patterns.
  rewrite !new_matchers_app.
  unfold mbind, M_bind, bind at 1.
  rewrite deny_loop.
  destruct (new_matchers NewMatcher
              (AccessRequestConditions.Roles (Role.GetAccessRequestConditions role Deny)))
    as [d1 [e1|]]; simpl; [reflexivity|].
  unfold bind at 1. unfold get at 1. unfold bind at 1. rewrite deny_loop. simpl.
  destruct (new_matchers NewMatcher
              (TraitsToRoles
                 (AccessRequestConditions.GetTraitMappings
                    (Role.GetAccessRequestConditions role Deny)) (traits m)))
    as [d2 [e2|]]; simpl.
  { rewrite <- app_assoc. reflexivity. }
  unfold bind at 1. unfold get at 1. unfold bind at 1. simpl.
  destruct (IsPending (state m)) eqn:Hp.
  - rewrite deny_annotations_loop. simpl.
    unfold bind at 1. rewrite allow_loop. simpl.
    destruct (new_matchers NewMatcher
                (AccessRequestConditions.Roles (Role.GetAccessRequestConditions role Allow)))
      as [a1 [f1|]]; simpl.
    { unfold set_Roles_Allow, set_Roles_Deny, set_Annotations_Deny; simpl.
      rewrite <- app_assoc. reflexivity. }
    unfold bind at 1. unfold get at 1. unfold bind at 1. rewrite allow_loop. simpl.
    destruct (new_matchers NewMatcher
                (TraitsToRoles
                   (AccessRequestConditions.GetTraitMappings
                      (Role.GetAccessRequestConditions role Allow)) (traits m)))
      as [a2 [f2|]]; simpl.
    { unfold set_Roles_Allow, set_Roles_Deny, set_Annotations_Deny; simpl.
      rewrite <- !app_assoc. reflexivity. }
    unfold bind at 1. unfold get at 1. simpl. rewrite Hp.
    rewrite allow_annotations_loop. simpl.
    unfold set_Roles_Allow, set_Roles_Deny, set_Annotations_Deny, set_Annotations_Allow; simpl.
    rewrite <- !app_assoc. reflexivity.
  - unfold mret, M_ret. unfold ret at 1. unfold bind at 1. rewrite allow_loop. simpl.
    destruct (new_matchers NewMatcher
                (AccessRequestConditions.Roles (Role.GetAccessRequestConditions role Allow)))
      as [a1 [f1|]]; simpl.
    { unfold set_Roles_Allow, set_Roles_Deny; simpl.
      rewrite <- app_assoc. reflexivity. }
    unfold bind at 1. unfold get at 1. unfold bind at 1. rewrite allow_loop. simpl.
    destruct (new_matchers NewMatcher
                (TraitsToRoles
                   (AccessRequestConditions.GetTraitMappings
                      (Role.GetAccessRequestConditions role Allow)) (traits m)))
      as [a2 [f2|]]; simpl.
    { unfold set_Roles_Allow, set_Roles_Deny; simpl.
      rewrite <- !app_assoc. reflexivity. }
    unfold bind at 1. unfold get at 1. simpl. rewrite Hp.
    unfold mret, M_ret, ret.
    unfold set_Roles_Allow, set_Roles_Deny; simpl.
    rewrite <- !app_assoc. reflexivity.
Qed.

Lemma push_success (role : Role.t) (m m' : requestValidator Matcher) :
  push NewMatcher TraitsToRoles applyValueTraits role m = (m', inr tt) →
  traits m' = traits m
  ∧ state m' = state m
  ∧ Roles_Deny m'
    = Roles_Deny m
      ++ (new_matchers NewMatcher
            (role_patterns TraitsToRoles (Role.GetAccessRequestConditions role Deny)
               (traits m))).1
  ∧ Roles_Allow m'
    = Roles_Allow m
      ++ (new_matchers NewMatcher
            (role_patterns TraitsToRoles (Role.GetAccessRequestConditions role Allow)
               (traits m))).1
  ∧ Annotations_Deny m'
    = (if IsPending (state m)
       then add_annotations applyValueTraits (traits m) (Annotations_Deny m)
              (map_to_list (AccessRequestConditions.Annotations
                              (Role.GetAccessRequestConditions role Deny)))
       else Annotations_Deny m)
  ∧ Annotations_Allow m'
    = (if IsPending (state m)
       then add_annotations applyValueTraits (traits m) (Annotations_Allow m)
              (map_to_list (AccessRequestConditions.Annotations
                              (Role.GetAccessRequestConditions role Allow)))
       else Annotations_Allow m).
Proof.
  rewrite push_run. unfold pushed.
  destruct (new_matchers NewMatcher
              (role_patterns TraitsToRoles (Role.GetAccessRequestConditions role Deny)
                 (traits m))) as [d [e|]]; simpl; [discriminate|].
  destruct (new_matchers NewMatcher
              (role_patterns TraitsToRoles (Role.GetAccessRequestConditions role Allow)
                 (traits m))) as [a [f|]]; simpl; [discriminate|].
  intros [= <-]. destruct (IsPending (state m)); simpl; repeat split; reflexivity.
Qed.

(** C5. Starting from one aggregator (a fresh one in particular, with given
    traits and state), pushing [r1] then [r2] and pushing [r2] then [r1]
    give, when all four pushes succeed, aggregators that answer
    [CanRequestRole] alike for every role name. *)
Theorem CanRequestRole_push_order (m0 : requestValidator Matcher) (r1 r2 : Role.t)
    (m1 m12 m2 m21 : requestValidator Matcher) (name : string) :
  push NewMatcher TraitsToRoles applyValueTraits r1 m0 = (m1, inr tt) →
  push NewMatcher TraitsToRoles applyValueTraits r2 m1 = (m12, inr tt) →
  push NewMatcher TraitsToRoles applyValueTraits r2 m0 = (m2, inr tt) →
  push NewMatcher TraitsToRoles applyValueTraits r1 m2 = (m21, inr tt) →
  CanRequestRole Match m12 name = CanRequestRole Match m21 name.
Proof.
  intros H1 H12 H2 H21.
  apply push_success in H1 as (Ht1 & _ & Hd1 & Ha1 & _).
  apply push_success in H12 as (_ & _ & Hd12 & Ha12 & _).
  apply push_success in H2 as (Ht2 & _ & Hd2 & Ha2 & _).
  apply push_success in H21 as (_ & _ & Hd21 & Ha21 & _).
  rewrite Ht1 in Hd12, Ha12. rewrite Ht2 in Hd21, Ha21.
  unfold CanRequestRole.
  rewrite Hd12, Hd21, Ha12, Ha21, Hd1, Hd2, Ha1, Ha2.
  rewrite !matches_some_app.
  repeat match goal with
         | |- context [matches_some Match ?l name] =>
             let b := fresh "b" in
             generalize (matches_some Match l name); intros b
         end.
  repeat match goal with b : bool |- _ => destruct b end; reflexivity.
Qed.

(** ** Annotation templates *)

Lemma applyTemplates_from (templates acc : list string) (tr : gmap string (list string)) :
  foldl (λ vals d,
           match applyValueTraits d tr with
           | inl _ => vals
           | inr applied => vals ++ applied
           end) acc templates
  = acc ++ interpolated applyValueTraits templates tr.
Proof.
  unfold interpolated. revert acc.
  induction templates as [|d rest IH]; intros acc; simpl.
  - rewrite app_nil_r. reflexivity.
  - rewrite IH. destruct (applyValueTraits d tr) as [err|applied]; simpl.
    + reflexivity.
    + rewrite <- app_assoc. reflexivity.
Qed.

Lemma applyTemplates_interpolated (templates : list string) (tr : gmap string (list string)) :
  applyTemplates applyValueTraits templates tr = interpolated applyValueTraits templates tr.
Proof. unfold applyTemplates. rewrite applyTemplates_from. reflexivity. Qed.

Lemma interpolated_skip (before after : list string) (d : string)
    (tr : gmap string (list string)) (err : error) :
  applyValueTraits d tr = inl err →
  interpolated applyValueTraits (before ++ d :: after) tr
  = interpolated applyValueTraits (before ++ after) tr.
Proof.
  intros Hfail. unfold interpolated. rewrite !bind_app. simpl.
  rewrite Hfail. reflexivity.
Qed.

Lemma add_annotations_lookup (tr acc : gmap string (list string))
    (entries : list (string * list string)) (k : string) :
  NoDup entries.*1 →
  add_annotations applyValueTraits tr acc entries !! k
  = accumulated applyValueTraits acc (list_to_map entries) tr k.
Proof.
  unfold add_annotations, accumulated. revert acc.
  induction entries as [|[k0 vd0] rest IH]; intros acc Hnd.
  - simpl. rewrite lookup_empty. reflexivity.
  - rewrite fmap_cons in Hnd. apply NoDup_cons in Hnd as [Hk0 Hnd].
    cbn [foldl list_to_map foldr uncurry fst snd]. rewrite (IH _ Hnd).
    rewrite applyTemplates_interpolated.
    destruct (decide (k0 = k)) as [->|Hne].
    + rewrite (not_elem_of_list_to_map_1 _ _ Hk0). rewrite !lookup_insert_eq. reflexivity.
    + unfold at_key. rewrite !lookup_insert_ne by exact Hne. reflexivity.
Qed.

(** The order in which [push] visits the annotations of a role does not
    matter. *)
Lemma add_annotations_any_order (tr acc added : gmap string (list string))
    (entries : list (string * list string)) :
  range_of added entries →
  add_annotations applyValueTraits tr acc entries
  = add_annotations applyValueTraits tr acc (map_to_list added).
Proof.
  unfold range_of. intros Hperm.
  assert (Hnd : NoDup entries.*1).
  { rewrite Hperm. apply NoDup_fst_map_to_list. }
  apply map_eq. intros k.
  rewrite (add_annotations_lookup _ _ _ _ Hnd).
  rewrite (add_annotations_lookup _ _ _ _ (NoDup_fst_map_to_list _)).
  rewrite (list_to_map_proper _ _ Hnd Hperm). reflexivity.
Qed.

Lemma add_annotations_map (tr acc added : gmap string (list string)) (k : string) :
  add_annotations applyValueTraits tr acc (map_to_list added) !! k
  = accumulated applyValueTraits acc added tr k.
Proof.
  rewrite (add_annotations_lookup _ _ _ _ (NoDup_fst_map_to_list _)).
  rewrite list_to_map_to_list. reflexivity.
Qed.

(** ** The validation routine *)

Lemma is_wildcard (r : list string) :
  bool_decide (length r = 1) && bool_decide (r !! 0 = Some "*") = bool_decide (r = ["*"]).
Proof.
  destruct r as [|x [|y r]]; simpl; repeat case_bool_decide; simplify_eq; done.
Qed.

Lemma held_lookup (names : list string) (acc : gmap string bool) (n : string) :
  default false (foldl (λ held roleName, <[roleName := true]> held) acc names !! n) = true
  ↔ n ∈ names ∨ default false (acc !! n) = true.
Proof.
  revert acc. induction names as [|x names IH]; intros acc; simpl.
  - split; [intros H; right; exact H | intros [H|H]; [inversion H | exact H]].
  - rewrite IH. rewrite elem_of_cons.
    destruct (decide (x = n)) as [->|Hne].
    + rewrite lookup_insert_eq. simpl. tauto.
    + rewrite (lookup_insert_ne _ _ _ _ Hne). split; [tauto|].
      intros [[->|H]|H]; [contradiction | tauto | tauto].
Qed.

Lemma expansion_loop_from (validator : requestValidator Matcher) (held : list string)
    (allRoles : list Role.t) (acc : list string) :
  foldl (λ expanded role,
           let n := Role.GetName role in
           if negb (default false
                      (foldl (λ held roleName, <[roleName := true]> held)
                             (∅ : gmap string bool) held !! n))
              && CanRequestRole Match validator n
           then expanded ++ [n] else expanded)
        acc allRoles
  = acc ++ expansion Match validator held allRoles.
Proof.
  unfold expansion. revert acc.
  induction allRoles as [|role rest IH]; intros acc; simpl.
  - rewrite app_nil_r. reflexivity.
  - rewrite IH. clear IH.
    destruct (default false
                (foldl (λ held roleName, <[roleName := true]> held)
                       (∅ : gmap string bool) held !! Role.GetName role)) eqn:Hheld; simpl.
    + apply held_lookup in Hheld as [Hin|Habs].
      * rewrite filter_cons_False; [reflexivity|]. tauto.
      * rewrite lookup_empty in Habs. discriminate.
    + assert (Hnot : Role.GetName role ∉ held).
      { intros Hin. apply not_true_iff_false in Hheld. apply Hheld.
        apply held_lookup. left. exact Hin. }
      destruct (CanRequestRole Match validator (Role.GetName role)) eqn:Hcan.
      * rewrite filter_cons_True by (split; assumption).
        rewrite <- app_assoc. reflexivity.
      * rewrite filter_cons_False; [reflexivity|]. intros [_ H]. congruence.
Qed.

Lemma check_loop (validator : requestValidator Matcher) (user : string)
    (roles : list string) (req : AccessRequestV3.t) :
  for_range roles (λ roleName,
    if negb (CanRequestRole Match validator roleName)
    then throw (BadParameter "user %q cannot request/assume role %q" [user; roleName])
    else mret tt) req
  = (req,
     match list_find (λ n, CanRequestRole Match validator n = false) roles with
     | Some (_, roleName) =>
         inl (BadParameter "user %q cannot request/assume role %q" [user; roleName])
     | None => inr tt
     end).
Proof.
  induction roles as [|n rest IH]; simpl; [reflexivity|].
  unfold mbind, M_bind, bind.
  destruct (CanRequestRole Match validator n) eqn:Hcan; simpl.
  - unfold mret, M_ret, ret in *. rewrite IH.
    destruct (list_find (λ n0, CanRequestRole Match validator n0 = false) rest)
      as [[i x]|]; reflexivity.
  - reflexivity.
Qed.

Lemma ValidateAccessRequest_no_user (getter : UserAndRoleGetter.t) (expandRoles : bool)
    (req : AccessRequestV3.t) (err : error) :
  UserAndRoleGetter.GetUser getter (AccessRequestV3.GetUser req) false = inl err →
  ValidateAccessRequest NewMatcher Match TraitsToRoles applyValueTraits getter expandRoles req
  = (req, inl (Wrap err)).
Proof.
  intros Huser. unfold ValidateAccessRequest, mbind, M_bind.
  unfold bind at 1. unfold get at 1. unfold bind at 1. rewrite Huser. reflexivity.
Qed.

Lemma ValidateAccessRequest_push_fails (getter : UserAndRoleGetter.t) (expandRoles : bool)
    (req : AccessRequestV3.t) (user : User.t) (locals : requestValidator Matcher * bool)
    (err : error) :
  UserAndRoleGetter.GetUser getter (AccessRequestV3.GetUser req) false = inr user →
  push_held_roles NewMatcher TraitsToRoles applyValueTraits getter (User.GetRoles user)
    (initial_locals user req) = (locals, inl err) →
  ValidateAccessRequest NewMatcher Match TraitsToRoles applyValueTraits getter expandRoles req
  = (req, inl err).
Proof.
  intros Huser Hloop. unfold ValidateAccessRequest, mbind, M_bind.
  unfold bind at 1. unfold get at 1. unfold bind at 1. rewrite Huser.
  unfold try_wrap, ret at 1. unfold bind at 1. unfold with_locals.
  unfold initial_locals in Hloop. rewrite Hloop. reflexivity.
Qed.

Lemma ValidateAccessRequest_run (getter : UserAndRoleGetter.t) (expandRoles : bool)
    (req : AccessRequestV3.t) (user : User.t) (validator : requestValidator Matcher)
    (requireReason : bool) :
  UserAndRoleGetter.GetUser getter (AccessRequestV3.GetUser req) false = inr user →
  push_held_roles NewMatcher TraitsToRoles applyValueTraits getter (User.GetRoles user)
    (initial_locals user req) = ((validator, requireReason), inr tt) →
  ValidateAccessRequest NewMatcher Match TraitsToRoles applyValueTraits getter expandRoles req
  = validated Match getter expandRoles user validator requireReason req.
Proof.
  intros Huser Hloop. unfold ValidateAccessRequest, validated, mbind, M_bind.
  unfold bind at 1. unfold get at 1. unfold bind at 1. rewrite Huser.
  unfold try_wrap at 1. unfold ret at 1. unfold bind at 1. unfold with_locals.
  unfold initial_locals in Hloop. rewrite Hloop. cbn [fst snd].
  unfold bind at 1.
  destruct (requireReason && bool_decide (AccessRequestV3.GetRequestReason req = ""));
    [reflexivity|].
  unfold mret at 1. unfold M_ret, ret at 1.
  unfold bind at 1. rewrite is_wildcard.
  assert (Hfinish : ∀ r : AccessRequestV3.t,
    bind get (λ req0,
      bind (for_range (AccessRequestV3.GetRoles req0) (λ roleName,
              if negb (CanRequestRole Match validator roleName)
              then throw (BadParameter "user %q cannot request/assume role %q"
                                       [AccessRequestV3.GetUser req0; roleName])
              else mret tt))
           (λ _, bind get (λ req1,
              if IsPending (AccessRequestV3.GetState req1)
              then modify (AccessRequestV3.SetSystemAnnotations
                             (SystemAnnotations validator))
              else mret tt))) r
    = checked Match validator r).
  { intros r. unfold bind at 1. unfold get at 1. unfold bind at 1.
    rewrite check_loop. unfold checked.
    destruct (list_find (λ n, CanRequestRole Match validator n = false)
                (AccessRequestV3.GetRoles r)) as [[i n]|]; [reflexivity|].
    unfold bind, get, annotated.
    destruct (IsPending (AccessRequestV3.GetState r)); reflexivity. }
  case_bool_decide as Hw.
  - destruct expandRoles; simpl; [|reflexivity].
    unfold bind at 1. unfold try_wrap.
    destruct (UserAndRoleGetter.GetRoles getter) as [err|allRoles]; [reflexivity|].
    unfold ret at 1. unfold modify at 1.
    rewrite expansion_loop_from. simpl. apply Hfinish.
  - unfold mret at 1. unfold M_ret, ret at 1. apply Hfinish.
Qed.

Lemma push_held_roles_cons (getter : UserAndRoleGetter.t) (name : string)
    (rest : list string) (v : requestValidator Matcher) (rr : bool) :
  push_held_roles NewMatcher TraitsToRoles applyValueTraits getter (name :: rest) (v, rr)
  = match UserAndRoleGetter.GetRole getter name with
    | inl err => ((v, rr), inl (Wrap err))
    | inr role =>
        match push NewMatcher TraitsToRoles applyValueTraits role v with
        | (v', inl err) => ((v', rr), inl (Wrap err))
        | (v', inr _) =>
            push_held_roles NewMatcher TraitsToRoles applyValueTraits getter rest
              (v', rr || bool_decide (Role.RequestAccess role = RequestStrategyReason))
        end
    end.
Proof.
  unfold push_held_roles. cbn [for_range]. unfold mbind, M_bind.
  unfold bind at 1. unfold bind at 1. unfold try_wrap.
  destruct (UserAndRoleGetter.GetRole getter name) as [err|role]; [reflexivity|].
  unfold ret at 1. unfold bind at 1. unfold wrapped, zoom. cbn [fst snd].
  destruct (push NewMatcher TraitsToRoles applyValueTraits role v) as [v' [err|[]]];
    [reflexivity|].
  case_bool_decide; simpl.
  - rewrite orb_true_r. reflexivity.
  - rewrite orb_false_r. reflexivity.
Qed.

Lemma push_held_roles_reason (getter : UserAndRoleGetter.t) (names : list string)
    (v v' : requestValidator Matcher) (rr rr' : bool) :
  push_held_roles NewMatcher TraitsToRoles applyValueTraits getter names (v, rr)
  = ((v', rr'), inr tt) →
  rr' = true
  ↔ rr = true
    ∨ ∃ name role, name ∈ names
        ∧ UserAndRoleGetter.GetRole getter name = inr role
        ∧ Role.RequestAccess role = RequestStrategyReason.
Proof.
  revert v rr. induction names as [|name rest IH]; intros v rr.
  - intros [= <- <-]. split; [tauto|]. intros [H|(n & r & Hin & _)]; [exact H | inversion Hin].
  - rewrite push_held_roles_cons.
    destruct (UserAndRoleGetter.GetRole getter name) as [err|role] eqn:Hrole; [discriminate|].
    destruct (push NewMatcher TraitsToRoles applyValueTraits role v) as [v1 [err|[]]];
      [discriminate|].
    intros Hrest. apply IH in Hrest. rewrite Hrest. clear Hrest IH.
    rewrite orb_true_iff, bool_decide_eq_true. split.
    + intros [[H|H]|(n & r & Hin & Hn & Hr)].
      * left. exact H.
      * right. exists name, role. split; [left | split; assumption].
      * right. exists n, r. split; [right; exact Hin | split; assumption].
    + intros [H|(n & r & Hin & Hn & Hr)]; [tauto|].
      apply elem_of_cons in Hin as [->|Hin].
      * rewrite Hrole in Hn. injection Hn as <-. tauto.
      * right. exists n, r. tauto.
Qed.

Lemma checked_requestable (validator : requestValidator Matcher) (req : AccessRequestV3.t) :
  Forall (λ n, CanRequestRole Match validator n = true) (AccessRequestV3.GetRoles req) →
  checked Match validator req = (annotated validator req, inr tt).
Proof.
  intros Hall. unfold checked.
  destruct (list_find (λ n, CanRequestRole Match validator n = false)
              (AccessRequestV3.GetRoles req)) as [[i n]|] eqn:Hfind; [|reflexivity].
  apply list_find_Some in Hfind as (Hi & Hn & _).
  rewrite Forall_forall in Hall.
  assert (Hin : n ∈ AccessRequestV3.GetRoles req) by (apply list_elem_of_lookup; eauto).
  apply Hall in Hin. congruence.
Qed.

Lemma checked_success (validator : requestValidator Matcher) (req req' : AccessRequestV3.t) :
  checked Match validator req = (req', inr tt) →
  req' = annotated validator req
  ∧ Forall (λ n, CanRequestRole Match validator n = true) (AccessRequestV3.GetRoles req).
Proof.
  unfold checked.
  destruct (list_find (λ n, CanRequestRole Match validator n = false)
              (AccessRequestV3.GetRoles req)) as [[i n]|] eqn:Hfind; [discriminate|].
  intros [= <-]. split; [reflexivity|].
  apply Forall_forall. intros n Hin.
  rewrite list_find_None in Hfind. rewrite Forall_forall in Hfind.
  specialize (Hfind n Hin). apply not_false_iff_true in Hfind. exact Hfind.
Qed.

Lemma expansion_requestable (validator : requestValidator Matcher) (held : list string)
    (allRoles : list Role.t) :
  Forall (λ n, CanRequestRole Match validator n = true)
         (expansion Match validator held allRoles).
Proof.
  apply Forall_forall. intros n Hin. unfold expansion in Hin.
  apply list_elem_of_filter in Hin as [[_ Hcan] _]. exact Hcan.
Qed.

(** C2 (as amended). When [ValidateAccessRequest] is called with
    [expandRoles = true] on a request whose role list is exactly the single
    entry [*], and the user is found, every held role is found and pushed
    without error, no required request reason is missing and the role
    catalogue can be listed, it succeeds and replaces the role list by exactly
    the catalogue's role names that the user does not hold and that
    [CanRequestRole] approves, in catalogue order; this holds as well when
    that list is empty. *)
Theorem wildcard_expansion (getter : UserAndRoleGetter.t) (req : AccessRequestV3.t)
    (user : User.t) (validator : requestValidator Matcher) (requireReason : bool)
    (allRoles : list Role.t) :
  AccessRequestV3.GetRoles req = ["*"] →
  UserAndRoleGetter.GetUser getter (AccessRequestV3.GetUser req) false = inr user →
  push_held_roles NewMatcher TraitsToRoles applyValueTraits getter (User.GetRoles user)
    (initial_locals user req) = ((validator, requireReason), inr tt) →
  requireReason && bool_decide (AccessRequestV3.GetRequestReason req = "") = false →
  UserAndRoleGetter.GetRoles getter = inr allRoles →
  ∃ req',
    ValidateAccessRequest NewMatcher Match TraitsToRoles applyValueTraits getter true req
    = (req', inr tt)
    ∧ AccessRequestV3.GetRoles req' = expansion Match validator (User.GetRoles user) allRoles
    ∧ (∀ n, n ∈ AccessRequestV3.GetRoles req'
            ↔ n ∈ Role.GetName <$> allRoles
              ∧ (n ∉ User.GetRoles user)
              ∧ CanRequestRole Match validator n = true)
    ∧ req' = annotated validator
               (AccessRequestV3.SetRoles
                  (expansion Match validator (User.GetRoles user) allRoles) req).
Proof.
  intros Hwild Huser Hloop Hreason Hlist.
  rewrite (ValidateAccessRequest_run _ _ _ _ _ _ Huser Hloop).
  unfold validated. rewrite Hreason, Hwild, Hlist.
  rewrite bool_decide_eq_true_2 by reflexivity.
  rewrite checked_requestable by apply expansion_requestable.
  eexists. split; [reflexivity|].
  assert (Hroles : AccessRequestV3.GetRoles
                     (annotated validator
                        (AccessRequestV3.SetRoles
                           (expansion Match validator (User.GetRoles user) allRoles) req))
                   = expansion Match validator (User.GetRoles user) allRoles).
  { unfold annotated.
    destruct (IsPending _); reflexivity. }
  split; [exact Hroles|]. split; [|reflexivity].
  intros n. rewrite Hroles. unfold expansion. rewrite list_elem_of_filter. tauto.
Qed.

(** C6 (as amended). When [ValidateAccessRequest] is called with
    [expandRoles = false] on a request whose role list is exactly the single
    entry [*], it returns an error and leaves the request, so its role list
    and annotations, as it was; when the user is found, every held role is
    found and pushed without error and no required request reason is missing,
    that error is BadParameter "unexpected wildcard access request". *)
Theorem wildcard_without_expansion (getter : UserAndRoleGetter.t) (req : AccessRequestV3.t) :
  AccessRequestV3.GetRoles req = ["*"] →
  (∃ err,
     ValidateAccessRequest NewMatcher Match TraitsToRoles applyValueTraits getter false req
     = (req, inl err))
  ∧ (∀ user validator requireReason,
       UserAndRoleGetter.GetUser getter (AccessRequestV3.GetUser req) false = inr user →
       push_held_roles NewMatcher TraitsToRoles applyValueTraits getter (User.GetRoles user)
         (initial_locals user req) = ((validator, requireReason), inr tt) →
       requireReason && bool_decide (AccessRequestV3.GetRequestReason req = "") = false →
       ValidateAccessRequest NewMatcher Match TraitsToRoles applyValueTraits getter false req
       = (req, inl (BadParameter "unexpected wildcard access request" []))).
Proof.
  intros Hwild.
  assert (Hgate : ∀ user validator requireReason,
    validated Match getter false user validator requireReason req
    = (req, inl (if requireReason && bool_decide (AccessRequestV3.GetRequestReason req = "")
                 then BadParameter "request reason must be specified" []
                 else BadParameter "unexpected wildcard access request" []))).
  { intros user validator requireReason. unfold validated. rewrite Hwild.
    rewrite (bool_decide_eq_true_2 (["*"] = ["*"])) by reflexivity.
    destruct (requireReason && bool_decide (AccessRequestV3.GetRequestReason req = ""));
      reflexivity. }
  split.
  - destruct (UserAndRoleGetter.GetUser getter (AccessRequestV3.GetUser req) false)
      as [err|user] eqn:Huser.
    { eexists. apply ValidateAccessRequest_no_user. exact Huser. }
    destruct (push_held_roles NewMatcher TraitsToRoles applyValueTraits getter
                (User.GetRoles user) (initial_locals user req))
      as [[validator requireReason] [err|[]]] eqn:Hloop.
    { eexists. eapply ValidateAccessRequest_push_fails; eassumption. }
    eexists. rewrite (ValidateAccessRequest_run _ _ _ _ _ _ Huser Hloop). apply Hgate.
  - intros user validator requireReason Huser Hloop Hreason.
    rewrite (ValidateAccessRequest_run _ _ _ _ _ _ Huser Hloop).
    rewrite Hgate, Hreason. reflexivity.
Qed.

(** C7 (as amended). If the user is found, every held role is found and
    pushed without error, at least one held role has its [RequestAccess]
    option equal to "reason" and the request reason is the empty string, then
    [ValidateAccessRequest] fails with BadParameter "request reason must be
    specified" and leaves the request as it was, whatever [expandRoles] and
    the requested roles are: neither wildcard resolution nor a check of a
    requested role comes before it. *)
Theorem reason_must_be_specified (getter : UserAndRoleGetter.t) (expandRoles : bool)
    (req : AccessRequestV3.t) (user : User.t) (validator : requestValidator Matcher)
    (requireReason : bool) (roleName : string) (role : Role.t) :
  UserAndRoleGetter.GetUser getter (AccessRequestV3.GetUser req) false = inr user →
  push_held_roles NewMatcher TraitsToRoles applyValueTraits getter (User.GetRoles user)
    (initial_locals user req) = ((validator, requireReason), inr tt) →
  roleName ∈ User.GetRoles user →
  UserAndRoleGetter.GetRole getter roleName = inr role →
  Role.RequestAccess role = RequestStrategyReason →
  AccessRequestV3.GetRequestReason req = "" →
  ValidateAccessRequest NewMatcher Match TraitsToRoles applyValueTraits getter expandRoles req
  = (req, inl (BadParameter "request reason must be specified" [])).
Proof.
  intros Huser Hloop Hheld Hrole Hstrategy Hreason.
  rewrite (ValidateAccessRequest_run _ _ _ _ _ _ Huser Hloop).
  assert (Hrr : requireReason = true).
  { unfold initial_locals in Hloop.
    apply (push_held_roles_reason _ _ _ _ _ _ Hloop).
    right. exists roleName, role. tauto. }
  unfold validated. rewrite Hrr, Hreason.
  rewrite bool_decide_eq_true_2 by reflexivity. reflexivity.
Qed.

Lemma annotated_fields (validator : requestValidator Matcher) (req : AccessRequestV3.t) :
  AccessRequestV3.GetUser (annotated validator req) = AccessRequestV3.GetUser req
  ∧ AccessRequestV3.GetState (annotated validator req) = AccessRequestV3.GetState req
  ∧ AccessRequestV3.GetRequestReason (annotated validator req)
    = AccessRequestV3.GetRequestReason req
  ∧ AccessRequestV3.GetRoles (annotated validator req) = AccessRequestV3.GetRoles req
  ∧ annotated validator (annotated validator req) = annotated validator req.
Proof.
  unfold annotated. destruct (IsPending (AccessRequestV3.GetState req)) eqn:Hp.
  - repeat split. cbn. unfold AccessRequestV3.GetState in Hp. rewrite Hp. reflexivity.
  - rewrite Hp. repeat split.
Qed.

(** C8. When [ValidateAccessRequest] has succeeded on a request and left it
    with a role list other than the single wildcard entry, running it again
    on the request as it left it, against the same users and roles and with
    either value of [expandRoles], succeeds and leaves the request (its role
    list and its system annotations in particular) as it was before the
    second run. *)
Theorem revalidation_changes_nothing (getter : UserAndRoleGetter.t) (expand1 expand2 : bool)
    (req req1 : AccessRequestV3.t) :
  ValidateAccessRequest NewMatcher Match TraitsToRoles applyValueTraits getter expand1 req
  = (req1, inr tt) →
  AccessRequestV3.GetRoles req1 ≠ ["*"] →
  ValidateAccessRequest NewMatcher Match TraitsToRoles applyValueTraits getter expand2 req1
  = (req1, inr tt).
Proof.
  intros Hfirst Hnowild.
  destruct (UserAndRoleGetter.GetUser getter (AccessRequestV3.GetUser req) false)
    as [err|user] eqn:Huser.
  { rewrite (ValidateAccessRequest_no_user _ _ _ _ Huser) in Hfirst. discriminate. }
  destruct (push_held_roles NewMatcher TraitsToRoles applyValueTraits getter
              (User.GetRoles user) (initial_locals user req))
    as [[validator requireReason] [err|[]]] eqn:Hloop.
  { rewrite (ValidateAccessRequest_push_fails _ _ _ _ _ _ Huser Hloop) in Hfirst.
    discriminate. }
  rewrite (ValidateAccessRequest_run _ _ _ _ _ _ Huser Hloop) in Hfirst.
  (* the first run leaves [annotated validator req0] for a request [req0]
     that has the user, state and reason of [req] and requestable roles *)
  assert (Hshape : ∃ req0,
    req1 = annotated validator req0
    ∧ AccessRequestV3.GetUser req0 = AccessRequestV3.GetUser req
    ∧ AccessRequestV3.GetState req0 = AccessRequestV3.GetState req
    ∧ AccessRequestV3.GetRequestReason req0 = AccessRequestV3.GetRequestReason req
    ∧ Forall (λ n, CanRequestRole Match validator n = true) (AccessRequestV3.GetRoles req0)
    ∧ requireReason && bool_decide (AccessRequestV3.GetRequestReason req = "") = false).
  { unfold validated in Hfirst.
    destruct (requireReason && bool_decide (AccessRequestV3.GetRequestReason req = ""));
      [discriminate|].
    case_bool_decide as Hw.
    - destruct expand1; [|discriminate].
      destruct (UserAndRoleGetter.GetRoles getter) as [err|allRoles]; [discriminate|].
      apply checked_success in Hfirst as [-> Hall].
      eexists. split; [reflexivity|]. repeat split. exact Hall.
    - apply checked_success in Hfirst as [-> Hall].
      exists req. repeat split. exact Hall. }
  destruct Hshape as (req0 & -> & Hu & Hs & Hr & Hall & Hgate).
  destruct (annotated_fields validator req0) as (Hu' & Hs' & Hr' & Hroles' & Hidem).
  assert (Huser1 : UserAndRoleGetter.GetUser getter
                     (AccessRequestV3.GetUser (annotated validator req0)) false = inr user).
  { rewrite Hu', Hu. exact Huser. }
  assert (Hloop1 : push_held_roles NewMatcher TraitsToRoles applyValueTraits getter
                     (User.GetRoles user) (initial_locals user (annotated validator req0))
                   = ((validator, requireReason), inr tt)).
  { unfold initial_locals in *. rewrite Hs', Hs. exact Hloop. }
  rewrite (ValidateAccessRequest_run _ _ _ _ _ _ Huser1 Hloop1).
  unfold validated. rewrite Hr', Hr, Hgate.
  rewrite (bool_decide_eq_false_2 _ Hnowild).
  rewrite checked_requestable by (rewrite Hroles'; exact Hall).
  rewrite Hidem. reflexivity.
Qed.

End ValidatorFacts.

(** ** Templates that do not interpolate *)

Section Lenient.

Context {Matcher : Type}.
Variable NewMatcher : string → error + Matcher.
Variable Match : Matcher → string → bool.
Variable TraitsToRoles : TraitMappingSet → gmap string (list string) → list string.
Variable applyValueTraits : string → gmap string (list string) → error + list string.

Lemma interpolated_lenient (templates : list string) (tr : gmap string (list string)) :
  interpolated (lenient applyValueTraits) templates tr
  = interpolated applyValueTraits templates tr.
Proof.
  unfold interpolated, lenient.
  induction templates as [|d rest IH]; [reflexivity|].
  rewrite !bind_cons, IH. destruct (applyValueTraits d tr); reflexivity.
Qed.

Lemma add_annotations_lenient (tr acc : gmap string (list string))
    (entries : list (string * list string)) :
  add_annotations (lenient applyValueTraits) tr acc entries
  = add_annotations applyValueTraits tr acc entries.
Proof.
  unfold add_annotations. revert acc.
  induction entries as [|[k templates] rest IH]; intros acc; simpl; [reflexivity|].
  rewrite IH. rewrite !applyTemplates_interpolated, interpolated_lenient. reflexivity.
Qed.

Lemma push_lenient (role : Role.t) (m : requestValidator Matcher) :
  push NewMatcher TraitsToRoles (lenient applyValueTraits) role m
  = push NewMatcher TraitsToRoles applyValueTraits role m.
Proof.
  rewrite !push_run. unfold pushed. rewrite !add_annotations_lenient. reflexivity.
Qed.

Lemma push_held_roles_lenient (getter : UserAndRoleGetter.t) (names : list string)
    (locals : requestValidator Matcher * bool) :
  push_held_roles NewMatcher TraitsToRoles (lenient applyValueTraits) getter names locals
  = push_held_roles NewMatcher TraitsToRoles applyValueTraits getter names locals.
Proof.
  revert locals. induction names as [|name rest IH]; intros [v rr]; [reflexivity|].
  rewrite !push_held_roles_cons.
  destruct (UserAndRoleGetter.GetRole getter name) as [err|role]; [reflexivity|].
  rewrite push_lenient.
  destruct (push NewMatcher TraitsToRoles applyValueTraits role v) as [v' [err|[]]];
    [reflexivity|].
  apply IH.
Qed.

Lemma ValidateAccessRequest_lenient (getter : UserAndRoleGetter.t) (expandRoles : bool)
    (req : AccessRequestV3.t) :
  ValidateAccessRequest NewMatcher Match TraitsToRoles (lenient applyValueTraits)
    getter expandRoles req
  = ValidateAccessRequest NewMatcher Match TraitsToRoles applyValueTraits
      getter expandRoles req.
Proof.
  destruct (UserAndRoleGetter.GetUser getter (AccessRequestV3.GetUser req) false)
    as [err|user] eqn:Huser.
  { rewrite !(ValidateAccessRequest_no_user _ _ _ _ _ _ _ _ Huser). reflexivity. }
  destruct (push_held_roles NewMatcher TraitsToRoles applyValueTraits getter
              (User.GetRoles user) (initial_locals user req))
    as [[validator requireReason] [err|[]]] eqn:Hloop.
  - rewrite (ValidateAccessRequest_push_fails NewMatcher Match TraitsToRoles
               applyValueTraits _ _ _ _ _ _ Huser Hloop).
    rewrite <- push_held_roles_lenient in Hloop.
    rewrite (ValidateAccessRequest_push_fails NewMatcher Match TraitsToRoles
               (lenient applyValueTraits) _ _ _ _ _ _ Huser Hloop).
    reflexivity.
  - rewrite (ValidateAccessRequest_run NewMatcher Match TraitsToRoles
               applyValueTraits _ _ _ _ _ _ Huser Hloop).
    rewrite <- push_held_roles_lenient in Hloop.
    rewrite (ValidateAccessRequest_run NewMatcher Match TraitsToRoles
               (lenient applyValueTraits) _ _ _ _ _ _ Huser Hloop).
    reflexivity.
Qed.

(** C9. While the aggregator's state is PENDING, [push] passes over an
    annotation template whose interpolation fails.  Whether [push] returns an
    error is decided by the matcher constructions alone; after a successful
    [push] each key of the role's deny (allow) annotations holds, appended to
    what the deny (allow) accumulator held, the values of the templates that
    interpolate and nothing for one that does not; and [push], and so
    [ValidateAccessRequest], return what they would return had every failed
    interpolation produced no value and no error. *)
Theorem failed_interpolation_is_skipped (role : Role.t) (m : requestValidator Matcher) :
  state m = RequestState_PENDING →
  (push NewMatcher TraitsToRoles applyValueTraits role m).2
  = match (new_matchers NewMatcher
             (role_patterns TraitsToRoles (Role.GetAccessRequestConditions role Deny)
                (traits m))).2 with
    | Some err => inl err
    | None =>
        outcome (new_matchers NewMatcher
                   (role_patterns TraitsToRoles (Role.GetAccessRequestConditions role Allow)
                      (traits m))).2
    end
  ∧ (∀ m', push NewMatcher TraitsToRoles applyValueTraits role m = (m', inr tt) →
       ∀ k,
         Annotations_Deny m' !! k
         = accumulated applyValueTraits (Annotations_Deny m)
             (AccessRequestConditions.Annotations (Role.GetAccessRequestConditions role Deny))
             (traits m) k
         ∧ Annotations_Allow m' !! k
           = accumulated applyValueTraits (Annotations_Allow m)
               (AccessRequestConditions.Annotations
                  (Role.GetAccessRequestConditions role Allow))
               (traits m) k)
  ∧ (∀ before d after err,
       applyValueTraits d (traits m) = inl err →
       interpolated applyValueTraits (before ++ d :: after) (traits m)
       = interpolated applyValueTraits (before ++ after) (traits m))
  ∧ push NewMatcher TraitsToRoles applyValueTraits role m
    = push NewMatcher TraitsToRoles (lenient applyValueTraits) role m
  ∧ (∀ getter expandRoles req,
       ValidateAccessRequest NewMatcher Match TraitsToRoles applyValueTraits
         getter expandRoles req
       = ValidateAccessRequest NewMatcher Match TraitsToRoles (lenient applyValueTraits)
           getter expandRoles req).
Proof.
  intros Hpending.
  assert (Hp : IsPending (state m) = true).
  { unfold IsPending. apply bool_decide_eq_true. exact Hpending. }
  split; [|split; [|split; [|split]]].
  - rewrite push_run. unfold pushed.
    destruct (new_matchers NewMatcher
                (role_patterns TraitsToRoles (Role.GetAccessRequestConditions role Deny)
                   (traits m))) as [d [e|]]; simpl; [reflexivity|].
    destruct (new_matchers NewMatcher
                (role_patterns TraitsToRoles (Role.GetAccessRequestConditions role Allow)
                   (traits m))) as [a [f|]]; reflexivity.
  - intros m' Hpush k.
    apply push_success in Hpush as (_ & _ & _ & _ & Hdeny & Hallow).
    rewrite Hp in Hdeny, Hallow. rewrite Hdeny, Hallow.
    rewrite !add_annotations_map. split; reflexivity.
  - intros before d after err Hfail. eapply interpolated_skip. exact Hfail.
  - symmetry. apply push_lenient.
  - intros getter expandRoles req. symmetry. apply ValidateAccessRequest_lenient.
Qed.

End Lenient.

(** ** The map encoding of request filters *)

Lemma Parse_from_run (variants : list RequestState) (val : string) (s : RequestState) :
  Parse_from variants val s
  = match list_find (λ st, RequestState_String st = val) variants with
    | Some (_, st) => (st, inr tt)
    | None => (s, inl (BadParameter "unknown request state: %q" [val]))
    end.
Proof.
  induction variants as [|st rest IH]; simpl; [reflexivity|].
  case_bool_decide as E.
  - rewrite decide_True by exact E. reflexivity.
  - rewrite decide_False by exact E. rewrite IH.
    destruct (list_find (λ st0, RequestState_String st0 = val) rest) as [[i x]|]; reflexivity.
Qed.

Lemma Parse_named (val : string) (s st : RequestState) :
  state_named val = Some st → Parse val s = (st, inr tt).
Proof.
  unfold state_named, Parse. rewrite Parse_from_run.
  destruct (list_find (λ st0, RequestState_String st0 = val) stateVariants) as [[i x]|];
    simpl; [|discriminate].
  intros [= ->]. reflexivity.
Qed.

Lemma state_named_String (s : RequestState) :
  s ∈ stateVariants → state_named (RequestState_String s) = Some s.
Proof.
  unfold stateVariants. rewrite !elem_of_cons, elem_of_nil.
  intros [->|[->|[->|[->|[]]]]]; reflexivity.
Qed.

Lemma FromMap_range_run (entries : list (string * string)) (f0 : AccessRequestFilter.t) :
  NoDup entries.*1 →
  (∀ k v, (k, v) ∈ entries →
     k = keyID ∨ k = keyUser ∨ (k = keyState ∧ is_Some (state_named v))) →
  FromMap_range entries f0 = (decoded (list_to_map entries) f0, inr tt).
Proof.
  unfold FromMap_range. revert f0.
  induction entries as [|[k v] rest IH]; intros f0 Hnd Hknown.
  - destruct f0; reflexivity.
  - rewrite fmap_cons in Hnd. apply NoDup_cons in Hnd as [Hk Hnd]. simpl in Hk.
    assert (Hrest : ∀ k' v', (k', v') ∈ rest →
              k' = keyID ∨ k' = keyUser ∨ (k' = keyState ∧ is_Some (state_named v'))).
    { intros k' v' Hin. apply Hknown. right. exact Hin. }
    assert (Hnone : (list_to_map rest : gmap string string) !! k = None).
    { apply not_elem_of_list_to_map_1. exact Hk. }
    cbn [for_range list_to_map foldr uncurry fst snd]. unfold mbind, M_bind, bind.
    destruct (Hknown k v) as [->|[->|[-> [st Hst]]]]; [left | | |].
    + simpl. unfold modify. rewrite (IH _ Hnd Hrest). f_equal.
      unfold decoded, keyID, keyUser, keyState in *.
      rewrite lookup_insert_eq, Hnone.
      rewrite !lookup_insert_ne by discriminate. reflexivity.
    + simpl. unfold modify. rewrite (IH _ Hnd Hrest). f_equal.
      unfold decoded, keyID, keyUser, keyState in *.
      rewrite lookup_insert_eq, Hnone.
      rewrite !lookup_insert_ne by discriminate. reflexivity.
    + simpl. unfold wrapped, zoom. rewrite (Parse_named _ _ _ Hst).
      rewrite (IH _ Hnd Hrest). f_equal.
      unfold decoded, keyID, keyUser, keyState in *.
      rewrite lookup_insert_eq, Hnone.
      rewrite !lookup_insert_ne by discriminate. simpl. rewrite Hst. reflexivity.
Qed.

Lemma IntoMap_lookup (f : AccessRequestFilter.t) (k v : string) :
  IntoMap f !! k = Some v →
  (k = keyID ∧ v = AccessRequestFilter.ID f)
  ∨ (k = keyUser ∧ v = AccessRequestFilter.User f)
  ∨ (k = keyState ∧ v = RequestState_String (AccessRequestFilter.State f)).
Proof.
  unfold IntoMap.
  destruct (negb (bool_decide (AccessRequestFilter.ID f = "")));
    destruct (negb (bool_decide (AccessRequestFilter.User f = "")));
    destruct (negb (IsNone (AccessRequestFilter.State f)));
    cbv zeta; unfold keyID, keyUser, keyState; intros H;
    repeat match type of H with
           | <[?i := _]> _ !! k = Some _ =>
               let Hne := fresh "Hne" in
               destruct (decide (i = k)) as [<-|Hne];
               [rewrite lookup_insert_eq in H; injection H as <-; tauto
               |rewrite (lookup_insert_ne _ _ _ _ Hne) in H]
           end;
    rewrite lookup_empty in H; discriminate.
Qed.

Lemma decoded_IntoMap (f : AccessRequestFilter.t) :
  AccessRequestFilter.State f ∈ stateVariants →
  decoded (IntoMap f) AccessRequestFilter.zero = f.
Proof.
  intros Hstate. destruct f as [id user st]. simpl in Hstate.
  unfold decoded, IntoMap, AccessRequestFilter.zero, IsNone; simpl.
  unfold keyID, keyUser, keyState.
  f_equal.
  - repeat case_bool_decide; simpl;
      rewrite ?lookup_insert_eq, ?lookup_insert_ne by discriminate;
      rewrite ?lookup_insert_eq, ?lookup_insert_ne by discriminate;
      rewrite ?lookup_insert_eq, ?lookup_empty; simpl; congruence.
  - repeat case_bool_decide; simpl;
      rewrite ?lookup_insert_eq, ?lookup_insert_ne by discriminate;
      rewrite ?lookup_insert_eq, ?lookup_insert_ne by discriminate;
      rewrite ?lookup_insert_eq, ?lookup_empty; simpl; congruence.
  - repeat case_bool_decide; simpl;
      rewrite ?lookup_insert_eq, ?lookup_insert_ne by discriminate;
      rewrite ?lookup_insert_eq, ?lookup_insert_ne by discriminate;
      rewrite ?lookup_insert_eq, ?lookup_empty; simpl;
      rewrite ?(state_named_String _ Hstate); simpl;
      first [congruence | subst; reflexivity].
Qed.

(** C10. For a filter [f] whose state is one of the four defined states, and
    for every order in which the entries of [f.IntoMap()] are visited,
    [FromMap] run on the zero filter returns no error and leaves a filter that
    [Equals] answers to be equal to [f]. *)
Theorem FromMap_IntoMap (f : AccessRequestFilter.t) (entries : list (string * string)) :
  AccessRequestFilter.State f ∈ stateVariants →
  range_of (IntoMap f) entries →
  ∃ g, FromMap_range entries AccessRequestFilter.zero = (g, inr tt)
       ∧ FromMap (IntoMap f) AccessRequestFilter.zero = (g, inr tt)
       ∧ Equals g f = true.
Proof.
  intros Hstate Hrange. unfold range_of in Hrange.
  assert (Hrun : ∀ l, l ≡ₚ map_to_list (IntoMap f) →
            FromMap_range l AccessRequestFilter.zero = (f, inr tt)).
  { intros l Hl.
    assert (Hnd : NoDup l.*1) by (rewrite Hl; apply NoDup_fst_map_to_list).
    rewrite FromMap_range_run.
    - rewrite (list_to_map_proper _ _ Hnd Hl), list_to_map_to_list.
      rewrite (decoded_IntoMap _ Hstate). reflexivity.
    - exact Hnd.
    - intros k v Hin. rewrite Hl in Hin. apply elem_of_map_to_list in Hin.
      apply IntoMap_lookup in Hin as [[-> _]|[[-> _]|[-> ->]]]; [tauto | tauto |].
      right. right. split; [reflexivity|].
      rewrite (state_named_String _ Hstate). eexists. reflexivity. }
  exists f. split; [apply Hrun; exact Hrange|].
  split; [apply Hrun; reflexivity|].
  unfold Equals. rewrite !bool_decide_eq_true_2 by reflexivity. reflexivity.
Qed.

(** ** The statements at concrete inputs *)

Lemma CanRequestRole_push_order_witness :
  ∃ m12 m21,
    Plain.push Plain.team_deny (Plain.push Plain.base Plain.pending_validator).1
    = (m12, inr tt)
    ∧ Plain.push Plain.base (Plain.push Plain.team_deny Plain.pending_validator).1
      = (m21, inr tt)
    ∧ Plain.CanRequestRole m12 "dev-infra" = Plain.CanRequestRole m21 "dev-infra".
Proof.
  eexists. eexists. split; [vm_compute; reflexivity|].
  split; [vm_compute; reflexivity|].
  eapply (CanRequestRole_push_order Plain.NewMatcher Plain.Match Plain.TraitsToRoles
            Plain.applyValueTraits Plain.pending_validator Plain.base Plain.team_deny);
    vm_compute; reflexivity.
Defined.

Lemma wildcard_expansion_witness :
  ∃ req',
    Plain.ValidateAccessRequest Plain.base_getter true (Plain.wildcard_request "")
    = (req', inr tt)
    ∧ AccessRequestV3.GetRoles req' = ["dev-infra"].
Proof.
  edestruct (wildcard_expansion Plain.NewMatcher Plain.Match Plain.TraitsToRoles
               Plain.applyValueTraits Plain.base_getter (Plain.wildcard_request ""))
    as (req' & Hrun & Hroles & _);
    [reflexivity | vm_compute; reflexivity | vm_compute; reflexivity
    | reflexivity | reflexivity |].
  exists req'. split; [exact Hrun|]. rewrite Hroles. vm_compute. reflexivity.
Defined.

(** The claim C2 as it is worded fails where a held role asks for a reason
    and none is given: the call with [expandRoles = true] on the role list
    [*] returns an error and the role list stays [*], while the catalogue
    holds [dev-infra], which [alice] does not hold and may request. *)
Lemma wildcard_expansion_counterexample :
  AccessRequestV3.GetRoles (Plain.wildcard_request "") = ["*"]
  ∧ Plain.ValidateAccessRequest Plain.reason_getter true (Plain.wildcard_request "")
    = (Plain.wildcard_request "", inl (BadParameter "request reason must be specified" []))
  ∧ Plain.ValidateAccessRequest Plain.reason_getter true (Plain.wildcard_request "because")
    = (Plain.request "alice" ["dev-infra"] RequestState_PENDING "because", inr tt)
  ∧ AccessRequestV3.GetRoles
      (Plain.ValidateAccessRequest Plain.reason_getter true (Plain.wildcard_request "")).1
    ≠ ["dev-infra"].
Proof.
  split; [reflexivity|]. split; [vm_compute; reflexivity|].
  split; [vm_compute; reflexivity|]. vm_compute. discriminate.
Qed.

Lemma wildcard_without_expansion_witness :
  Plain.ValidateAccessRequest Plain.base_getter false (Plain.wildcard_request "")
  = (Plain.wildcard_request "", inl (BadParameter "unexpected wildcard access request" [])).
Proof.
  eapply (wildcard_without_expansion Plain.NewMatcher Plain.Match Plain.TraitsToRoles
            Plain.applyValueTraits Plain.base_getter (Plain.wildcard_request ""));
    [reflexivity | vm_compute; reflexivity | vm_compute; reflexivity | reflexivity].
Defined.

(** The claim C6 as it is worded fails on the same input with
    [expandRoles = false]: the error is the one about the missing reason. *)
Lemma wildcard_without_expansion_counterexample :
  AccessRequestV3.GetRoles (Plain.wildcard_request "") = ["*"]
  ∧ Plain.ValidateAccessRequest Plain.reason_getter false (Plain.wildcard_request "")
    = (Plain.wildcard_request "", inl (BadParameter "request reason must be specified" []))
  ∧ Plain.ValidateAccessRequest Plain.reason_getter false (Plain.wildcard_request "")
    ≠ (Plain.wildcard_request "",
       inl (BadParameter "unexpected wildcard access request" [])).
Proof.
  split; [reflexivity|]. split; [vm_compute; reflexivity|]. vm_compute. discriminate.
Qed.

Lemma reason_must_be_specified_witness :
  Plain.ValidateAccessRequest Plain.reason_getter true (Plain.wildcard_request "")
  = (Plain.wildcard_request "", inl (BadParameter "request reason must be specified" [])).
Proof.
  eapply (reason_must_be_specified Plain.NewMatcher Plain.Match Plain.TraitsToRoles
            Plain.applyValueTraits Plain.reason_getter true (Plain.wildcard_request "")
            _ _ _ "base" Plain.base_reason);
    [vm_compute; reflexivity | vm_compute; reflexivity | vm_compute; left
    | reflexivity | reflexivity | reflexivity].
Defined.

(** The claim C7 as it is worded fails where another held role cannot be
    loaded: [base] asks for a reason and the request gives none, yet the
    error returned is that of the lookup of [ghost]. *)
Lemma reason_must_be_specified_counterexample :
  UserAndRoleGetter.GetUser Plain.ghost_getter "alice" false
  = inr (User.mk ["base"; "ghost"] {[ "team" := ["infra"] ]})
  ∧ UserAndRoleGetter.GetRole Plain.ghost_getter "base" = inr Plain.base_reason
  ∧ Role.RequestAccess Plain.base_reason = RequestStrategyReason
  ∧ Plain.ValidateAccessRequest Plain.ghost_getter false
      (Plain.request "alice" ["dev-infra"] RequestState_PENDING "")
    = (Plain.request "alice" ["dev-infra"] RequestState_PENDING "",
       inl (NotFound "role %s is not found" ["ghost"]))
  ∧ Plain.ValidateAccessRequest Plain.ghost_getter false
      (Plain.request "alice" ["dev-infra"] RequestState_PENDING "")
    ≠ (Plain.request "alice" ["dev-infra"] RequestState_PENDING "",
       inl (BadParameter "request reason must be specified" [])).
Proof.
  split; [vm_compute; reflexivity|]. split; [vm_compute; reflexivity|].
  split; [reflexivity|]. split; [vm_compute; reflexivity|]. vm_compute. discriminate.
Qed.

Lemma revalidation_changes_nothing_witness :
  Plain.ValidateAccessRequest Plain.base_getter false
    (Plain.request "alice" ["dev-infra"] RequestState_PENDING "")
  = (Plain.request "alice" ["dev-infra"] RequestState_PENDING "", inr tt).
Proof.
  eapply (revalidation_changes_nothing Plain.NewMatcher Plain.Match Plain.TraitsToRoles
            Plain.applyValueTraits Plain.base_getter true false (Plain.wildcard_request ""));
    [vm_compute; reflexivity | vm_compute; discriminate].
Defined.

Lemma failed_interpolation_is_skipped_witness :
  Plain.applyValueTraits "{{external.squad}}" (traits Plain.pending_validator)
  = inl (NotFound "variable %q is not found" ["squad"])
  ∧ ∃ m', Plain.push Plain.team_role Plain.pending_validator = (m', inr tt)
          ∧ Annotations_Allow m' !! "team" = Some ["infra"].
Proof.
  split; [vm_compute; reflexivity|].
  destruct (failed_interpolation_is_skipped Plain.NewMatcher Plain.Match Plain.TraitsToRoles
              Plain.applyValueTraits Plain.team_role Plain.pending_validator eq_refl)
    as (_ & Hvalues & _).
  eexists. split; [vm_compute; reflexivity|].
  refine (eq_trans (proj2 (Hvalues _ _ "team")) _); vm_compute; reflexivity.
Defined.

Lemma FromMap_IntoMap_witness :
  ∃ g,
    FromMap (IntoMap (AccessRequestFilter.mk "request-1" "alice" RequestState_APPROVED))
      AccessRequestFilter.zero = (g, inr tt)
    ∧ Equals g (AccessRequestFilter.mk "request-1" "alice" RequestState_APPROVED) = true.
Proof.
  destruct (FromMap_IntoMap
              (AccessRequestFilter.mk "request-1" "alice" RequestState_APPROVED)
              (map_to_list
                 (IntoMap (AccessRequestFilter.mk "request-1" "alice" RequestState_APPROVED))))
    as (g & _ & Hrun & Heq).
  - unfold stateVariants. simpl. right. right. left.
  - unfold range_of. reflexivity.
  - exists g. split; assumption.
Defined.

(** * Further properties *)

(** ** Parsing and encoding of filters *)

(** X1. [Parse] accepts exactly the four state names: on one of them it
    returns no error and stores the state that prints as the name; on any
    other string it returns BadParameter and leaves the state as it was. *)
Theorem Parse_accepts_the_state_names (val : string) (s : RequestState) :
  (val ∈ state_names →
     ∃ st, Parse val s = (st, inr tt)
           ∧ RequestState_String st = val ∧ st ∈ stateVariants)
  ∧ (val ∉ state_names →
       Parse val s = (s, inl (BadParameter "unknown request state: %q" [val]))).
Proof.
  unfold state_names. split.
  - rewrite !elem_of_cons, elem_of_nil.
    intros [->|[->|[->|[->|[]]]]]; eexists; (split; [reflexivity|]);
      (split; [reflexivity|]); unfold stateVariants; set_solver.
  - intros Hnot. unfold Parse. rewrite Parse_from_run.
    destruct (list_find (λ st, RequestState_String st = val) stateVariants)
      as [[i st]|] eqn:Hfind; [|reflexivity].
    apply list_find_Some in Hfind as (Hi & Hname & _).
    assert (Hin : st ∈ stateVariants) by (apply list_elem_of_lookup; eauto).
    exfalso. apply Hnot. subst val. unfold stateVariants in Hin.
    rewrite !elem_of_cons, elem_of_nil in Hin.
    destruct Hin as [->|[->|[->|[->|[]]]]]; set_solver.
Qed.

Lemma FromMap_body_unknown (entries : list (string * string)) (f0 : AccessRequestFilter.t) :
  (∃ k v, (k, v) ∈ entries ∧ k ≠ keyID ∧ k ≠ keyUser ∧ k ≠ keyState) →
  ∃ f' err, FromMap_range entries f0 = (f', inl err) ∧ is_BadParameter err = true.
Proof.
  unfold FromMap_range. revert f0.
  induction entries as [|[k0 v0] rest IH]; intros f0 (k & v & Hin & Hid & Huser & Hstate).
  - inversion Hin.
  - cbn [for_range]. unfold mbind, M_bind, bind.
    assert (Hrest : (k, v) = (k0, v0) ∨ (k, v) ∈ rest) by (apply elem_of_cons; exact Hin).
    case_bool_decide as E1.
    { unfold modify. destruct Hrest as [[= -> ->]|Hrest]; [contradiction|].
      apply IH. eauto 10. }
    case_bool_decide as E2.
    { unfold modify. destruct Hrest as [[= -> ->]|Hrest]; [contradiction|].
      apply IH. eauto 10. }
    case_bool_decide as E3.
    { unfold wrapped, zoom, Parse. rewrite Parse_from_run.
      destruct (list_find (λ st, RequestState_String st = v0) stateVariants) as [[i st]|].
      - destruct Hrest as [[= -> ->]|Hrest]; [contradiction|]. apply IH. eauto 10.
      - eexists. eexists. split; reflexivity. }
    unfold throw. eexists. eexists. split; reflexivity.
Qed.

(** X2. [FromMap] refuses a map that holds a key other than [id], [user] and
    [state]: in whatever order the entries are visited it returns a
    BadParameter error. *)
Theorem FromMap_unknown_key (m : gmap string string) (entries : list (string * string))
    (f0 : AccessRequestFilter.t) (k : string) :
  range_of m entries →
  is_Some (m !! k) →
  k ≠ keyID → k ≠ keyUser → k ≠ keyState →
  ∃ f' err, FromMap_range entries f0 = (f', inl err) ∧ is_BadParameter err = true.
Proof.
  unfold range_of. intros Hrange [v Hv] Hid Huser Hstate.
  apply FromMap_body_unknown. exists k, v. split; [|tauto].
  rewrite Hrange. apply elem_of_map_to_list. exact Hv.
Qed.

Lemma FromMap_unknown_key_witness :
  ∃ f' err,
    FromMap {[ "id" := "request-1"; "owner" := "alice" ]} AccessRequestFilter.zero
    = (f', inl err) ∧ is_BadParameter err = true.
Proof.
  apply (FromMap_unknown_key {[ "id" := "request-1"; "owner" := "alice" ]} _ _ "owner");
    [unfold range_of; reflexivity | vm_compute; eauto
    | discriminate | discriminate | discriminate].
Defined.

Lemma IntoMap_at (f : AccessRequestFilter.t) (k : string) :
  IntoMap f !! k
  = if bool_decide (k = keyID)
    then (if bool_decide (AccessRequestFilter.ID f = "") then None
          else Some (AccessRequestFilter.ID f))
    else if bool_decide (k = keyUser)
    then (if bool_decide (AccessRequestFilter.User f = "") then None
          else Some (AccessRequestFilter.User f))
    else if bool_decide (k = keyState)
    then (if IsNone (AccessRequestFilter.State f) then None
          else Some (RequestState_String (AccessRequestFilter.State f)))
    else None.
Proof.
  unfold IntoMap, keyID, keyUser, keyState.
  destruct (bool_decide (AccessRequestFilter.ID f = ""));
    destruct (bool_decide (AccessRequestFilter.User f = ""));
    destruct (IsNone (AccessRequestFilter.State f)); cbn [negb]; cbv zeta;
    repeat case_bool_decide; subst;
    rewrite ?lookup_insert_eq, ?lookup_insert_ne by congruence;
    rewrite ?lookup_insert_eq, ?lookup_insert_ne by congruence;
    rewrite ?lookup_insert_eq, ?lookup_insert_ne by congruence;
    rewrite ?lookup_empty; congruence.
Qed.

(** X3. The other round trip: a map whose keys are among [id], [user] and
    [state], whose values are not empty and whose state, when present, names
    PENDING, APPROVED or DENIED, is decoded by [FromMap] without error into a
    filter that [IntoMap] encodes as the same map. *)
Theorem IntoMap_FromMap (m : gmap string string) :
  (∀ k v, m !! k = Some v →
     v ≠ ""
     ∧ (k = keyID ∨ k = keyUser
        ∨ (k = keyState ∧ v ∈ ["PENDING"; "APPROVED"; "DENIED"]))) →
  ∃ f, FromMap m AccessRequestFilter.zero = (f, inr tt) ∧ IntoMap f = m.
Proof.
  intros Hm.
  assert (Hstate : ∀ v, m !! keyState = Some v →
            ∃ st, state_named v = Some st ∧ RequestState_String st = v
                  ∧ IsNone st = false).
  { intros v Hv. destruct (Hm _ _ Hv) as [_ [H|[H|[_ Hin]]]]; [discriminate H.. |].
    rewrite !elem_of_cons, elem_of_nil in Hin.
    destruct Hin as [->|[->|[->|[]]]]; eexists; repeat split; reflexivity. }
  exists (decoded m AccessRequestFilter.zero). split.
  - unfold FromMap. rewrite FromMap_range_run.
    + rewrite list_to_map_to_list. reflexivity.
    + apply NoDup_fst_map_to_list.
    + intros k v Hin. apply elem_of_map_to_list in Hin.
      destruct (Hm _ _ Hin) as [_ [->|[->|[-> Hv]]]]; [tauto | tauto |].
      right. right. split; [reflexivity|].
      destruct (Hstate _ Hin) as (st & Hst & _). rewrite Hst. eexists. reflexivity.
  - apply map_eq. intros k. rewrite IntoMap_at. unfold decoded; simpl.
    case_bool_decide as E1.
    { subst k. destruct (m !! keyID) as [v|] eqn:Hv; simpl.
      - rewrite bool_decide_eq_false_2; [reflexivity|]. apply (Hm _ _ Hv).
      - reflexivity. }
    case_bool_decide as E2.
    { subst k. destruct (m !! keyUser) as [v|] eqn:Hv; simpl.
      - rewrite bool_decide_eq_false_2; [reflexivity|]. apply (Hm _ _ Hv).
      - reflexivity. }
    case_bool_decide as E3.
    { subst k. destruct (m !! keyState) as [v|] eqn:Hv; simpl.
      - destruct (Hstate _ eq_refl) as (st & Hst & Hname & Hnone).
        rewrite Hst. simpl. rewrite Hnone, Hname. reflexivity.
      - reflexivity. }
    destruct (m !! k) as [v|] eqn:Hv; [|reflexivity].
    destruct (Hm _ _ Hv) as [_ [H|[H|[H _]]]]; contradiction.
Qed.

Lemma IntoMap_FromMap_witness :
  ∃ f, FromMap {[ "user" := "alice"; "state" := "DENIED" ]} AccessRequestFilter.zero
       = (f, inr tt)
       ∧ IntoMap f = {[ "user" := "alice"; "state" := "DENIED" ]}.
Proof.
  apply (IntoMap_FromMap {[ "user" := "alice"; "state" := "DENIED" ]}).
  intros k v Hkv.
  apply lookup_insert_Some in Hkv as [[<- <-]|[Hne Hkv]].
  { split; [discriminate|]. right. left. reflexivity. }
  apply lookup_singleton_Some in Hkv as [<- <-].
  split; [discriminate|]. right. right. split; [reflexivity|]. set_solver.
Defined.

(** ** Request states over time *)

Lemma SetState_run (target : RequestState) (r : AccessRequestV3.t) :
  AccessRequestV3.SetState target r
  = if IsDenied (AccessRequestV3.GetState r)
    then (r, if IsDenied target then inr tt
             else inl (BadParameter "cannot set request-state %q (already denied)"
                                    [RequestState_String target]))
    else (AccessRequestV3.set_Spec (AccessRequestSpecV3.set_State target) r, inr tt).
Proof.
  unfold AccessRequestV3.SetState, AccessRequestV3.GetState, mbind, M_bind, bind, get.
  destruct (IsDenied (AccessRequestSpecV3.State (AccessRequestV3.Spec r)));
    [destruct (IsDenied target)|]; reflexivity.
Qed.

(** X4. Whatever states a caller sets one after the other, going on after
    errors: if the request was DENIED or DENIED is among the states set, the
    request ends DENIED; otherwise it ends in the last state set (any number
    is taken, also NONE or one that is no defined state).  Nothing but the
    state changes. *)
Theorem SetState_sequence (targets : list RequestState) (r : AccessRequestV3.t) :
  set_states targets r
  = AccessRequestV3.set_Spec
      (AccessRequestSpecV3.set_State
         (if bool_decide (RequestState_DENIED ∈ AccessRequestV3.GetState r :: targets)
          then RequestState_DENIED
          else List.last targets (AccessRequestV3.GetState r))) r.
Proof.
  unfold set_states. revert r. induction targets as [|t rest IH]; intros r.
  - simpl. destruct r as [? ? ? []]. unfold AccessRequestV3.GetState; simpl.
    case_bool_decide as E; [|reflexivity].
    apply list_elem_of_singleton in E. rewrite <- E. reflexivity.
  - cbn [foldl]. rewrite IH. rewrite SetState_run.
    destruct (IsDenied (AccessRequestV3.GetState r)) eqn:Hd; cbn [fst].
    + apply IsDenied_true in Hd. rewrite !bool_decide_eq_true_2; [reflexivity|..];
        rewrite Hd; set_solver.
    + apply IsDenied_false in Hd.
      assert (Hlast : ∀ (l : list RequestState) (x d : RequestState),
                List.last (x :: l) d = List.last l x).
      { clear. induction l as [|y l IH]; intros x d; [reflexivity|].
        change (List.last (x :: y :: l) d) with (List.last (y :: l) d).
        rewrite (IH y d), (IH y x). reflexivity. }
      rewrite Hlast.
      rewrite (bool_decide_ext (RequestState_DENIED ∈ AccessRequestV3.GetState r :: t :: rest)
                               (RequestState_DENIED ∈ t :: rest)).
      2:{ rewrite (elem_of_cons (t :: rest)). split; [|tauto].
          intros [H|H]; [congruence | exact H]. }
      destruct r as [kind version name spec]. destruct spec. reflexivity.
Qed.

(** ** Request identifiers *)

(** X5. [RequestIDs.Check] returns no error when [uuid.Parse] accepts every
    identifier (so for the empty list), and otherwise BadParameter for the
    first identifier it does not accept; it leaves the list as it is. *)
Theorem RequestIDs_Check_first_invalid (uuid_Parse : string → bool) (r : RequestIDs.t) :
  (Forall (λ id, uuid_Parse id = true) (RequestIDs.AccessRequests r) →
     RequestIDs.Check uuid_Parse r = (r, inr tt))
  ∧ (∀ before id after,
       RequestIDs.AccessRequests r = before ++ id :: after →
       Forall (λ id, uuid_Parse id = true) before →
       uuid_Parse id = false →
       RequestIDs.Check uuid_Parse r
       = (r, inl (BadParameter "invalid request id %q" [id]))).
Proof.
  change (RequestIDs.Check uuid_Parse r)
    with (for_range (RequestIDs.AccessRequests r) (λ id,
            if negb (uuid_Parse id)
            then throw (BadParameter "invalid request id %q" [id])
            else mret tt) r).
  assert (Hvalid : ∀ ids, Forall (λ id, uuid_Parse id = true) ids →
            for_range ids (λ id,
              if negb (uuid_Parse id)
              then throw (BadParameter "invalid request id %q" [id])
              else mret tt) r = (r, inr tt)).
  { intros ids Hall. induction Hall as [|id ids Hid _ IH]; [reflexivity|].
    cbn [for_range]. unfold mbind, M_bind, bind. rewrite Hid. simpl. exact IH. }
  split.
  - apply Hvalid.
  - intros before id after -> Hbefore Hid.
    rewrite for_range_app, (Hvalid _ Hbefore).
    cbn [for_range]. unfold mbind, M_bind, bind. rewrite Hid. reflexivity.
Qed.

(** ** Trait mappings *)

(** X6. [GetTraitMappings] gives one trait mapping per claim mapping, in the
    same order, with the claim as trait and the same value and roles. *)
Theorem GetTraitMappings_maps (c : AccessRequestConditions.t) :
  AccessRequestConditions.GetTraitMappings c
  = (λ mapping, TraitMapping.mk (ClaimMapping.Claim mapping) (ClaimMapping.Value mapping)
                                (ClaimMapping.Roles mapping))
    <$> AccessRequestConditions.ClaimsToRoles c.
Proof.
  unfold AccessRequestConditions.GetTraitMappings.
  assert (Hfrom : ∀ (l : list ClaimMapping.t) (acc : list TraitMapping.t),
    foldl (λ tm mapping,
             tm ++ [TraitMapping.mk (ClaimMapping.Claim mapping)
                                    (ClaimMapping.Value mapping)
                                    (ClaimMapping.Roles mapping)]) acc l
    = acc ++ ((λ mapping, TraitMapping.mk (ClaimMapping.Claim mapping)
                            (ClaimMapping.Value mapping) (ClaimMapping.Roles mapping))
              <$> l)).
  { induction l as [|x l IH]; intros acc; simpl.
    - rewrite app_nil_r. reflexivity.
    - rewrite IH, <- app_assoc. reflexivity. }
  apply Hfrom.
Qed.

(** ** Equality of requests *)

Lemma roles_equal_from_run (roles other : list string) (i : nat) :
  (i + length roles ≤ length other)%nat →
  Request.roles_equal_from i roles other
  = Some (bool_decide (roles = take (length roles) (drop i other))).
Proof.
  revert i. induction roles as [|role rest IH]; intros i Hlen; simpl in *.
  - reflexivity.
  - destruct (other !! i) as [o|] eqn:Ho.
    2:{ apply lookup_ge_None in Ho. lia. }
    rewrite (drop_S _ _ _ Ho). simpl.
    case_bool_decide as E; simpl.
    + rewrite IH by lia. subst o.
      apply f_equal. apply bool_decide_ext. split; [intros H; f_equal; exact H|].
      intros [= H]. exact H.
    + rewrite bool_decide_eq_false_2; [reflexivity|]. intros [= H _]. contradiction.
Qed.

Lemma Request_Equals_run (r o : AccessRequestV3.t) :
  Request.Equals r o
  = Some (bool_decide
            (Request.GetName r = Request.GetName o
             ∧ AccessRequestV3.GetUser r = AccessRequestV3.GetUser o
             ∧ AccessRequestV3.GetRoles r = AccessRequestV3.GetRoles o
             ∧ AccessRequestSpecV3.Created (AccessRequestV3.Spec r)
               = AccessRequestSpecV3.Created (AccessRequestV3.Spec o)
             ∧ AccessRequestSpecV3.Expires (AccessRequestV3.Spec r)
               = AccessRequestSpecV3.Expires (AccessRequestV3.Spec o)
             ∧ AccessRequestV3.GetState r = AccessRequestV3.GetState o)).
Proof.
  unfold Request.Equals, Request.SpecEquals, AccessRequestV3.GetUser,
    AccessRequestV3.GetRoles, AccessRequestV3.GetState.
  case_bool_decide as Hname; simpl.
  2:{ rewrite bool_decide_eq_false_2; [reflexivity | tauto]. }
  case_bool_decide as Huser; simpl.
  2:{ rewrite bool_decide_eq_false_2; [reflexivity | tauto]. }
  case_bool_decide as Hlen; simpl.
  2:{ rewrite bool_decide_eq_false_2; [reflexivity|]. intros (_ & _ & H & _).
      rewrite H in Hlen. contradiction. }
  rewrite roles_equal_from_run by lia.
  rewrite drop_0, Hlen, firstn_all.
  case_bool_decide as Hroles.
  2:{ rewrite bool_decide_eq_false_2; [reflexivity | tauto]. }
  case_bool_decide as Hcreated; simpl.
  2:{ rewrite bool_decide_eq_false_2; [reflexivity | tauto]. }
  case_bool_decide as Hexpires; simpl.
  2:{ rewrite bool_decide_eq_false_2; [reflexivity | tauto]. }
  apply f_equal. apply bool_decide_ext. tauto.
Qed.

(** X7. [Equals] on requests never indexes the other role list out of range,
    and answers true exactly when name, user, role list, creation time, expiry
    and state agree; it does not look at the reasons or at the annotations. *)
Theorem Request_Equals_fields (r o : AccessRequestV3.t) :
  ∃ b, Request.Equals r o = Some b
       ∧ (b = true
          ↔ Request.GetName r = Request.GetName o
            ∧ AccessRequestV3.GetUser r = AccessRequestV3.GetUser o
            ∧ AccessRequestV3.GetRoles r = AccessRequestV3.GetRoles o
            ∧ AccessRequestSpecV3.Created (AccessRequestV3.Spec r)
              = AccessRequestSpecV3.Created (AccessRequestV3.Spec o)
            ∧ AccessRequestSpecV3.Expires (AccessRequestV3.Spec r)
              = AccessRequestSpecV3.Expires (AccessRequestV3.Spec o)
            ∧ AccessRequestV3.GetState r = AccessRequestV3.GetState o).
Proof.
  eexists. split; [apply Request_Equals_run|]. apply bool_decide_eq_true.
Qed.

(** ** Loading one request *)

(** X8. When the store answers [GetAccessRequests] with requests that match
    the filter only, [GetAccessRequest] with a non-empty identifier returns a
    request of that name, or the error of the store, or NotFound when the store
    finds none. *)
Theorem GetAccessRequest_by_name
    (GetAccessRequests : AccessRequestFilter.t → error + list AccessRequestV3.t)
    (reqID : string) :
  (∀ f reqs, GetAccessRequests f = inr reqs →
     Forall (λ req, Filter.Match f req = true) reqs) →
  reqID ≠ "" →
  match GetAccessRequest GetAccessRequests reqID with
  | inr req => Request.GetName req = reqID
  | inl err =>
      GetAccessRequests (AccessRequestFilter.mk reqID "" 0%Z) = inl err
      ∨ (GetAccessRequests (AccessRequestFilter.mk reqID "" 0%Z) = inr []
         ∧ err = NotFound "no access request matching %q" [reqID])
  end.
Proof.
  intros Hstore Hid. unfold GetAccessRequest.
  destruct (GetAccessRequests (AccessRequestFilter.mk reqID "" 0%Z)) as [err|reqs] eqn:Hget.
  - left. reflexivity.
  - destruct reqs as [|first rest]; simpl.
    + right. split; reflexivity.
    + apply Hstore in Hget. apply Forall_cons in Hget as [Hmatch _].
      unfold Filter.Match in Hmatch. simpl in Hmatch.
      rewrite (bool_decide_eq_false_2 _ Hid) in Hmatch. simpl in Hmatch.
      case_bool_decide as E; [exact E | discriminate].
Qed.

Lemma store_matches (held : list AccessRequestV3.t) (f : AccessRequestFilter.t)
    (reqs : list AccessRequestV3.t) :
  More.store held f = inr reqs → Forall (λ req, Filter.Match f req = true) reqs.
Proof.
  unfold More.store. intros [= <-]. apply Forall_forall. intros x Hx.
  apply list_elem_of_In, filter_In in Hx. tauto.
Qed.

Lemma GetAccessRequest_by_name_witness :
  ∃ req,
    GetAccessRequest
      (More.store [More.named "request-1" "alice" RequestState_PENDING;
                   More.named "request-2" "bob" RequestState_DENIED]) "request-2"
    = inr req
    ∧ Request.GetName req = "request-2".
Proof.
  assert (H := GetAccessRequest_by_name
                 (More.store [More.named "request-1" "alice" RequestState_PENDING;
                              More.named "request-2" "bob" RequestState_DENIED])
                 "request-2").
  destruct (GetAccessRequest _ "request-2") as [err|req] eqn:E.
  - vm_compute in E. discriminate.
  - exists req. split; [reflexivity|]. apply H; [|discriminate].
    intros f reqs. apply store_matches.
Defined.

(** ** What validation changes *)

Section ValidationFrame.

Context {Matcher : Type}.
Variable NewMatcher : string → error + Matcher.
Variable Match : Matcher → string → bool.
Variable TraitsToRoles : TraitMappingSet → gmap string (list string) → list string.
Variable applyValueTraits : string → gmap string (list string) → error + list string.

(** Every run of [ValidateAccessRequest] either returns an error and the
    request as it was, or annotates a request that has requestable roles and
    is the given one or its wildcard expansion. *)
Lemma ValidateAccessRequest_cases (getter : UserAndRoleGetter.t) (expandRoles : bool)
    (req : AccessRequestV3.t) :
  (∃ err,
     ValidateAccessRequest NewMatcher Match TraitsToRoles applyValueTraits
       getter expandRoles req = (req, inl err))
  ∨ (∃ user validator requireReason req0,
       UserAndRoleGetter.GetUser getter (AccessRequestV3.GetUser req) false = inr user
       ∧ push_held_roles NewMatcher TraitsToRoles applyValueTraits getter
           (User.GetRoles user) (initial_locals user req)
         = ((validator, requireReason), inr tt)
       ∧ ValidateAccessRequest NewMatcher Match TraitsToRoles applyValueTraits
           getter expandRoles req = (annotated validator req0, inr tt)
       ∧ Forall (λ n, CanRequestRole Match validator n = true)
                (AccessRequestV3.GetRoles req0)
       ∧ ((req0 = req ∧ AccessRequestV3.GetRoles req ≠ ["*"])
          ∨ (AccessRequestV3.GetRoles req = ["*"] ∧ expandRoles = true
             ∧ ∃ allRoles,
                 UserAndRoleGetter.GetRoles getter = inr allRoles
                 ∧ req0 = AccessRequestV3.SetRoles
                            (expansion Match validator (User.GetRoles user) allRoles) req))).
Proof.
  destruct (UserAndRoleGetter.GetUser getter (AccessRequestV3.GetUser req) false)
    as [err|user] eqn:Huser.
  { left. eexists. apply ValidateAccessRequest_no_user. exact Huser. }
  destruct (push_held_roles NewMatcher TraitsToRoles applyValueTraits getter
              (User.GetRoles user) (initial_locals user req))
    as [[validator requireReason] [err|[]]] eqn:Hloop.
  { left. eexists. eapply ValidateAccessRequest_push_fails; eassumption. }
  rewrite (ValidateAccessRequest_run _ _ _ _ _ _ _ _ _ _ Huser Hloop).
  unfold validated.
  destruct (requireReason && bool_decide (AccessRequestV3.GetRequestReason req = ""));
    [left; eexists; reflexivity|].
  case_bool_decide as Hw.
  - destruct expandRoles; [|left; eexists; reflexivity].
    destruct (UserAndRoleGetter.GetRoles getter) as [err|allRoles] eqn:Hlist;
      [left; eexists; reflexivity|].
    right. exists user, validator, requireReason. eexists.
    split; [reflexivity|]. split; [exact Hloop|].
    split; [apply checked_requestable, expansion_requestable|].
    split; [apply expansion_requestable|].
    right. split; [exact Hw|]. split; [reflexivity|]. exists allRoles. split; reflexivity.
  - unfold checked.
    destruct (list_find (λ n, CanRequestRole Match validator n = false)
                (AccessRequestV3.GetRoles req)) as [[i n]|] eqn:Hfind;
      [left; eexists; reflexivity|].
    right. exists user, validator, requireReason, req.
    split; [reflexivity|]. split; [exact Hloop|]. split; [reflexivity|].
    split; [|left; split; [reflexivity | exact Hw]].
    apply Forall_forall. intros n Hin.
    rewrite list_find_None in Hfind. rewrite Forall_forall in Hfind.
    specialize (Hfind n Hin). apply not_false_iff_true in Hfind. exact Hfind.
Qed.

(** X9. [ValidateAccessRequest] changes the request only when it succeeds:
    whenever it returns an error, the request is as it was before the call. *)
Theorem ValidateAccessRequest_error_leaves_request (getter : UserAndRoleGetter.t)
    (expandRoles : bool) (req req' : AccessRequestV3.t) (err : error) :
  ValidateAccessRequest NewMatcher Match TraitsToRoles applyValueTraits
    getter expandRoles req = (req', inl err) →
  req' = req.
Proof.
  intros Hrun.
  destruct (ValidateAccessRequest_cases getter expandRoles req)
    as [[e He]|(user & validator & rr & req0 & _ & _ & Hok & _)];
    rewrite Hrun in *; congruence.
Qed.

Lemma ValidateAccessRequest_shape (getter : UserAndRoleGetter.t)
    (expandRoles : bool) (req req' : AccessRequestV3.t) :
  ValidateAccessRequest NewMatcher Match TraitsToRoles applyValueTraits
    getter expandRoles req = (req', inr tt) →
  req' = AccessRequestV3.SetSystemAnnotations (AccessRequestV3.GetSystemAnnotations req')
           (AccessRequestV3.SetRoles (AccessRequestV3.GetRoles req') req)
  ∧ (AccessRequestV3.GetRoles req ≠ ["*"] →
       AccessRequestV3.GetRoles req' = AccessRequestV3.GetRoles req)
  ∧ (AccessRequestV3.GetState req ≠ RequestState_PENDING →
       AccessRequestV3.GetSystemAnnotations req' = AccessRequestV3.GetSystemAnnotations req).
Proof.
  intros Hrun.
  destruct (ValidateAccessRequest_cases getter expandRoles req)
    as [[e He]|(user & validator & rr & req0 & _ & _ & Hok & _ & Hreq0)];
    rewrite Hrun in *; [discriminate|].
  injection Hok as ->.
  assert (Hnp : AccessRequestV3.GetState req ≠ RequestState_PENDING →
                IsPending (AccessRequestV3.GetState req) = false).
  { intros H. apply bool_decide_eq_false. exact H. }
  destruct req as [kind version name [user0 roles st created expires reason rr1 ra sa]].
  unfold annotated, AccessRequestV3.GetState, AccessRequestV3.GetRoles,
    AccessRequestV3.GetSystemAnnotations, AccessRequestV3.SetRoles,
    AccessRequestV3.SetSystemAnnotations, AccessRequestV3.set_Spec in *.
  destruct Hreq0 as [[-> Hnw]|(Hw & _ & allRoles & _ & ->)]; simpl in *.
  - destruct (IsPending st) eqn:Hp; simpl.
    + split; [reflexivity|]. split; [reflexivity|]. intros H. apply Hnp in H. discriminate.
    + split; [reflexivity|]. split; reflexivity.
  - destruct (IsPending st) eqn:Hp; simpl.
    + split; [reflexivity|]. split; [intros H; contradiction|].
      intros H. apply Hnp in H. discriminate.
    + split; [reflexivity|]. split; [intros H; contradiction | reflexivity].
Qed.

(** X10. A successful [ValidateAccessRequest] changes nothing but the role
    list and the system annotations: it changes the role list only when that
    is the single entry [*], and the system annotations only when the state is
    PENDING. *)
Theorem ValidateAccessRequest_frame (getter : UserAndRoleGetter.t)
    (expandRoles : bool) (req req' : AccessRequestV3.t) :
  ValidateAccessRequest NewMatcher Match TraitsToRoles applyValueTraits
    getter expandRoles req = (req', inr tt) →
  req' = AccessRequestV3.SetSystemAnnotations (AccessRequestV3.GetSystemAnnotations req')
           (AccessRequestV3.SetRoles (AccessRequestV3.GetRoles req') req)
  ∧ (AccessRequestV3.GetRoles req ≠ ["*"] →
       AccessRequestV3.GetRoles req' = AccessRequestV3.GetRoles req)
  ∧ (AccessRequestV3.GetState req ≠ RequestState_PENDING →
       AccessRequestV3.GetSystemAnnotations req' = AccessRequestV3.GetSystemAnnotations req).
Proof. apply ValidateAccessRequest_shape. Qed.

(** X11. [expandRoles] matters only to a wildcard request: on a request whose
    role list is not the single entry [*], [ValidateAccessRequest] does the
    same with and without it. *)
Theorem expandRoles_only_for_wildcard (getter : UserAndRoleGetter.t)
    (req : AccessRequestV3.t) :
  AccessRequestV3.GetRoles req ≠ ["*"] →
  ValidateAccessRequest NewMatcher Match TraitsToRoles applyValueTraits getter true req
  = ValidateAccessRequest NewMatcher Match TraitsToRoles applyValueTraits getter false req.
Proof.
  intros Hnw.
  destruct (UserAndRoleGetter.GetUser getter (AccessRequestV3.GetUser req) false)
    as [err|user] eqn:Huser.
  { rewrite !(ValidateAccessRequest_no_user _ _ _ _ _ _ _ _ Huser). reflexivity. }
  destruct (push_held_roles NewMatcher TraitsToRoles applyValueTraits getter
              (User.GetRoles user) (initial_locals user req))
    as [[validator requireReason] [err|[]]] eqn:Hloop.
  { rewrite !(ValidateAccessRequest_push_fails _ _ _ _ _ _ _ _ _ _ Huser Hloop).
    reflexivity. }
  rewrite !(ValidateAccessRequest_run _ _ _ _ _ _ _ _ _ _ Huser Hloop).
  unfold validated. rewrite (bool_decide_eq_false_2 _ Hnw). reflexivity.
Qed.

(** X12. [Equals] does not see what validation does to a request that is no
    wildcard request: after a successful [ValidateAccessRequest] the request
    still equals the one it was before. *)
Theorem validated_request_Equals (getter : UserAndRoleGetter.t)
    (expandRoles : bool) (req req' : AccessRequestV3.t) :
  ValidateAccessRequest NewMatcher Match TraitsToRoles applyValueTraits
    getter expandRoles req = (req', inr tt) →
  AccessRequestV3.GetRoles req ≠ ["*"] →
  Request.Equals req req' = Some true.
Proof.
  intros Hrun Hnw.
  destruct (ValidateAccessRequest_shape _ _ _ _ Hrun) as (Hshape & Hroles & _).
  specialize (Hroles Hnw).
  rewrite Request_Equals_run. f_equal. apply bool_decide_eq_true.
  rewrite Hshape, Hroles. destruct req as [? ? ? []]. repeat split.
Qed.

End ValidationFrame.

(** ** What [push] keeps *)

Section PushFacts.

Context {Matcher : Type}.
Variable NewMatcher : string → error + Matcher.
Variable Match : Matcher → string → bool.
Variable TraitsToRoles : TraitMappingSet → gmap string (list string) → list string.
Variable applyValueTraits : string → gmap string (list string) → error + list string.

(** Whatever [push] returns, it leaves the traits and the state, it only
    appends matchers, and it leaves the annotations of a request that is not
    pending. *)
Lemma push_keeps (role : Role.t) (m : requestValidator Matcher) :
  let m' := (push NewMatcher TraitsToRoles applyValueTraits role m).1 in
  traits m' = traits m
  ∧ state m' = state m
  ∧ (∃ added, Roles_Deny m' = Roles_Deny m ++ added)
  ∧ (∃ added, Roles_Allow m' = Roles_Allow m ++ added)
  ∧ (state m ≠ RequestState_PENDING →
       Annotations_Allow m' = Annotations_Allow m
       ∧ Annotations_Deny m' = Annotations_Deny m).
Proof.
  rewrite push_run. unfold pushed.
  assert (Hnp : state m ≠ RequestState_PENDING → IsPending (state m) = false).
  { intros H. apply bool_decide_eq_false. exact H. }
  destruct (new_matchers NewMatcher
              (role_patterns TraitsToRoles (Role.GetAccessRequestConditions role Deny)
                 (traits m))) as [d [e|]]; simpl.
  { split; [reflexivity|]. split; [reflexivity|]. split; [eauto|].
    split; [exists []; rewrite app_nil_r; reflexivity|]. intros _. split; reflexivity. }
  destruct (new_matchers NewMatcher
              (role_patterns TraitsToRoles (Role.GetAccessRequestConditions role Allow)
                 (traits m))) as [a [f|]]; simpl;
    destruct (IsPending (state m)) eqn:Hp; simpl;
    (split; [reflexivity|]); (split; [reflexivity|]); (split; [eauto|]);
    (split; [eauto|]); intros Hx; apply Hnp in Hx;
    first [discriminate | split; reflexivity].
Qed.

(** X13. A deny match is for good: a name that a deny matcher of the
    aggregator matches cannot be requested after any further [push], whether
    that push succeeds or fails. *)
Theorem denied_stays_denied (role : Role.t) (m : requestValidator Matcher) (name : string) :
  (∃ d, d ∈ Roles_Deny m ∧ Match d name = true) →
  CanRequestRole Match (push NewMatcher TraitsToRoles applyValueTraits role m).1 name
  = false.
Proof.
  intros Hdeny. apply matches_some_true in Hdeny.
  destruct (push_keeps role m) as (_ & _ & [added Hadded] & _).
  unfold CanRequestRole. rewrite Hadded, matches_some_app, Hdeny. reflexivity.
Qed.

Lemma new_matchers_failure (patterns : list string) (err : error) :
  (new_matchers NewMatcher patterns).2 = Some err →
  ∃ before p after,
    patterns = before ++ p :: after
    ∧ Forall (λ q, ∃ md, NewMatcher q = inr md) before
    ∧ NewMatcher p = inl err.
Proof.
  induction patterns as [|q rest IH]; simpl; [discriminate|].
  destruct (NewMatcher q) as [e|md] eqn:Hq; simpl.
  - intros [= <-]. exists [], q, rest. repeat split; [constructor | exact Hq].
  - destruct (new_matchers NewMatcher rest) as [mds failure]; simpl in *.
    intros H. destruct (IH H) as (before & p & after & -> & Hbefore & Hp).
    exists (q :: before), p, after. repeat split; [|exact Hp].
    constructor; [eauto | exact Hbefore].
Qed.

Lemma new_matchers_all (patterns : list string) :
  (new_matchers NewMatcher patterns).2 = None →
  Forall (λ q, ∃ md, NewMatcher q = inr md) patterns.
Proof.
  induction patterns as [|q rest IH]; simpl; [constructor|].
  destruct (NewMatcher q) as [e|md] eqn:Hq; simpl; [discriminate|].
  destruct (new_matchers NewMatcher rest) as [mds failure]; simpl in *.
  intros H. constructor; [eauto | apply IH; exact H].
Qed.

(** X14. An error of [push] is the error of a matcher construction: of the
    first pattern that yields no matcher, in the order deny patterns, deny
    trait mappings, allow patterns, allow trait mappings. *)
Theorem push_error_is_first_bad_pattern (role : Role.t) (m m' : requestValidator Matcher)
    (err : error) :
  push NewMatcher TraitsToRoles applyValueTraits role m = (m', inl err) →
  ∃ before p after,
    role_patterns TraitsToRoles (Role.GetAccessRequestConditions role Deny) (traits m)
    ++ role_patterns TraitsToRoles (Role.GetAccessRequestConditions role Allow) (traits m)
    = before ++ p :: after
    ∧ Forall (λ q, ∃ md, NewMatcher q = inr md) before
    ∧ NewMatcher p = inl err.
Proof.
  rewrite push_run. unfold pushed.
  destruct (new_matchers NewMatcher
              (role_patterns TraitsToRoles (Role.GetAccessRequestConditions role Deny)
                 (traits m))) as [d [e|]] eqn:Hd; simpl.
  - intros [= _ <-].
    destruct (new_matchers_failure
                (role_patterns TraitsToRoles (Role.GetAccessRequestConditions role Deny)
                   (traits m)) e) as (before & p & after & Heq & Hbefore & Hp).
    { rewrite Hd. reflexivity. }
    exists before, p, (after ++ role_patterns TraitsToRoles
                                  (Role.GetAccessRequestConditions role Allow) (traits m)).
    rewrite Heq, <- app_assoc. repeat split; assumption.
  - assert (Hall := new_matchers_all
                      (role_patterns TraitsToRoles
                         (Role.GetAccessRequestConditions role Deny) (traits m))).
    rewrite Hd in Hall. specialize (Hall eq_refl).
    destruct (new_matchers NewMatcher
                (role_patterns TraitsToRoles (Role.GetAccessRequestConditions role Allow)
                   (traits m))) as [a [f|]] eqn:Ha; simpl; [|discriminate].
    intros [= _ <-].
    destruct (new_matchers_failure
                (role_patterns TraitsToRoles (Role.GetAccessRequestConditions role Allow)
                   (traits m)) f) as (before & p & after & Heq & Hbefore & Hp).
    { rewrite Ha. reflexivity. }
    exists (role_patterns TraitsToRoles (Role.GetAccessRequestConditions role Deny) (traits m)
            ++ before), p, after.
    rewrite Heq, <- app_assoc. repeat split; [|exact Hp].
    apply Forall_app. split; assumption.
Qed.

Lemma push_held_roles_keeps (getter : UserAndRoleGetter.t) (names : list string)
    (v : requestValidator Matcher) (rr : bool) :
  let v' := (push_held_roles NewMatcher TraitsToRoles applyValueTraits getter names
               (v, rr)).1.1 in
  traits v' = traits v
  ∧ state v' = state v
  ∧ (state v ≠ RequestState_PENDING →
       Annotations_Allow v' = Annotations_Allow v
       ∧ Annotations_Deny v' = Annotations_Deny v).
Proof.
  revert v rr. induction names as [|name rest IH]; intros v rr.
  - simpl. tauto.
  - cbv zeta. rewrite push_held_roles_cons.
    destruct (UserAndRoleGetter.GetRole getter name) as [err|role]; [simpl; tauto|].
    destruct (push_keeps role v) as (Ht & Hs & _ & _ & Ha).
    destruct (push NewMatcher TraitsToRoles applyValueTraits role v) as [v1 [err|[]]];
      simpl in *.
    + tauto.
    + destruct (IH v1 (rr || bool_decide (Role.RequestAccess role = RequestStrategyReason)))
        as (Ht' & Hs' & Ha').
      rewrite Ht', Hs', Ht, Hs. split; [reflexivity|]. split; [reflexivity|].
      intros Hnp. rewrite Hs in Ha'. destruct (Ha' Hnp) as [-> ->]. apply Ha. exact Hnp.
Qed.

(** X15. For a request that is not PENDING, the aggregator that the loop over
    the held roles builds has the user's traits, the request's state and no
    annotation, so that its system annotations are empty. *)
Theorem no_annotations_unless_pending (getter : UserAndRoleGetter.t) (names : list string)
    (tr : gmap string (list string)) (st : RequestState) :
  st ≠ RequestState_PENDING →
  let v := (push_held_roles NewMatcher TraitsToRoles applyValueTraits getter names
              (newRequestValidator Matcher tr st, false)).1.1 in
  traits v = tr ∧ state v = st
  ∧ Annotations_Allow v = ∅ ∧ Annotations_Deny v = ∅
  ∧ SystemAnnotations v = ∅.
Proof.
  intros Hnp v.
  assert (Hnew : newRequestValidator Matcher tr st = mkValidator tr st [] [] ∅ ∅).
  { unfold newRequestValidator, IsPending. rewrite (bool_decide_eq_false_2 _ Hnp).
    reflexivity. }
  destruct (push_held_roles_keeps getter names (newRequestValidator Matcher tr st) false)
    as (Ht & Hs & Ha). fold v in Ht, Hs, Ha.
  rewrite Hnew in Ht, Hs, Ha. simpl in Ht, Hs, Ha.
  destruct (Ha Hnp) as [Hallow Hdeny].
  repeat split; try assumption.
  unfold SystemAnnotations. rewrite Hallow, map_to_list_empty. reflexivity.
Qed.

Lemma fresh_validator_denies (tr : gmap string (list string)) (st : RequestState)
    (name : string) :
  CanRequestRole Match (newRequestValidator Matcher tr st) name = false.
Proof.
  unfold newRequestValidator. destruct (IsPending st); reflexivity.
Qed.

(** X16. A user who holds no role can request nothing: a request that names
    roles fails with BadParameter for the first of them and stays as it was,
    and a wildcard request, when expanded, is left without any role. *)
Theorem no_held_role_no_request (getter : UserAndRoleGetter.t) (req : AccessRequestV3.t)
    (user : User.t) :
  UserAndRoleGetter.GetUser getter (AccessRequestV3.GetUser req) false = inr user →
  User.GetRoles user = [] →
  (∀ expandRoles first rest,
     AccessRequestV3.GetRoles req = first :: rest →
     AccessRequestV3.GetRoles req ≠ ["*"] →
     ValidateAccessRequest NewMatcher Match TraitsToRoles applyValueTraits
       getter expandRoles req
     = (req, inl (BadParameter "user %q cannot request/assume role %q"
                               [AccessRequestV3.GetUser req; first])))
  ∧ (∀ allRoles,
       AccessRequestV3.GetRoles req = ["*"] →
       UserAndRoleGetter.GetRoles getter = inr allRoles →
       ∃ req',
         ValidateAccessRequest NewMatcher Match TraitsToRoles applyValueTraits
           getter true req = (req', inr tt)
         ∧ AccessRequestV3.GetRoles req' = []).
Proof.
  intros Huser Hnone.
  assert (Hloop : push_held_roles NewMatcher TraitsToRoles applyValueTraits getter
                    (User.GetRoles user) (initial_locals user req)
                  = ((newRequestValidator Matcher (User.GetTraits user)
                        (AccessRequestV3.GetState req), false), inr tt)).
  { rewrite Hnone. reflexivity. }
  split.
  - intros expandRoles first rest Hroles Hnw.
    rewrite (ValidateAccessRequest_run _ _ _ _ _ _ _ _ _ _ Huser Hloop).
    unfold validated. rewrite (bool_decide_eq_false_2 _ Hnw). simpl.
    unfold checked. rewrite Hroles. simpl.
    rewrite fresh_validator_denies. simpl. reflexivity.
  - intros allRoles Hw Hlist.
    rewrite (ValidateAccessRequest_run _ _ _ _ _ _ _ _ _ _ Huser Hloop).
    unfold validated. rewrite Hw, Hlist. simpl.
    assert (Hexp : expansion Match
                     (newRequestValidator Matcher (User.GetTraits user)
                        (AccessRequestV3.GetState req)) (User.GetRoles user) allRoles = []).
    { unfold expansion. clear Hlist. induction allRoles as [|r l IH]; [reflexivity|].
      rewrite fmap_cons, filter_cons_False; [exact IH|].
      rewrite fresh_validator_denies. intros [_ H]. discriminate. }
    rewrite Hexp. eexists. split; [reflexivity|].
    unfold annotated. destruct (IsPending _); reflexivity.
Qed.

End PushFacts.

(** ** The check before a request is stored *)

Lemma Check_leaves (uuid_Parse : string → bool) (r : AccessRequestV3.t) :
  (Request.Check uuid_Parse r).1 = r.
Proof.
  unfold Request.Check, mbind, M_bind, bind, get, throw, mret, M_ret, ret.
  repeat (case_bool_decide || destruct (uuid_Parse _) || destruct (IsPending _)
          || simpl || reflexivity).
Qed.

Lemma Check_success (uuid_Parse : string → bool) (r : AccessRequestV3.t) :
  (Request.Check uuid_Parse r).2 = inr tt
  ↔ AccessRequestV3.Kind r ≠ "" ∧ AccessRequestV3.Version r ≠ ""
    ∧ Request.GetName r ≠ "" ∧ uuid_Parse (Request.GetName r) = true
    ∧ AccessRequestV3.GetUser r ≠ "" ∧ AccessRequestV3.GetRoles r ≠ []
    ∧ (AccessRequestV3.GetState r = RequestState_PENDING →
         Request.GetResolveReason r = "" ∧ Request.GetResolveAnnotations r = ∅).
Proof.
  unfold Request.Check, mbind, M_bind, bind, get, throw, mret, M_ret, ret, IsPending.
  case_bool_decide as Hkind; simpl; [split; [discriminate | tauto]|].
  case_bool_decide as Hversion; simpl; [split; [discriminate | tauto]|].
  case_bool_decide as Hname; simpl; [split; [discriminate | tauto]|].
  destruct (uuid_Parse (Request.GetName r)) eqn:Hid; simpl;
    [|split; [discriminate | intros (_ & _ & _ & H & _); discriminate]].
  case_bool_decide as Huser; simpl; [split; [discriminate | tauto]|].
  case_bool_decide as Hroles; simpl.
  { split; [discriminate|]. intros (_ & _ & _ & _ & _ & H & _).
    destruct (AccessRequestV3.GetRoles r); [contradiction | simpl in Hroles; lia]. }
  assert (Hne : AccessRequestV3.GetRoles r ≠ []).
  { intros H. rewrite H in Hroles. simpl in Hroles. lia. }
  case_bool_decide as Hp; simpl.
  2:{ split; [|reflexivity]. intros _. repeat split; try assumption; contradiction. }
  case_bool_decide as Hreason; simpl.
  2:{ split; [discriminate|]. intros (_ & _ & _ & _ & _ & _ & H). apply H in Hp. tauto. }
  case_bool_decide as Hann; simpl.
  - split; [|reflexivity]. intros _. repeat split; try assumption.
    apply map_size_empty_iff. exact Hann.
  - split; [discriminate|]. intros (_ & _ & _ & _ & _ & _ & H).
    destruct (H Hp) as [_ Hempty]. rewrite Hempty, map_size_empty in Hann. contradiction.
Qed.

Section CheckAfterValidation.

Context {Matcher : Type}.
Variable NewMatcher : string → error + Matcher.
Variable Match : Matcher → string → bool.
Variable TraitsToRoles : TraitMappingSet → gmap string (list string) → list string.
Variable applyValueTraits : string → gmap string (list string) → error + list string.

(** X17. Validation keeps a request storable unless it leaves it without a
    role: when a request passes [Check] and [ValidateAccessRequest] succeeds
    on it, the request it leaves passes [Check] exactly when its role list is
    not empty (a wildcard may expand to nothing). *)
Theorem Check_after_validation (uuid_Parse : string → bool)
    (getter : UserAndRoleGetter.t) (expandRoles : bool) (req req' : AccessRequestV3.t) :
  Request.Check uuid_Parse req = (req, inr tt) →
  ValidateAccessRequest NewMatcher Match TraitsToRoles applyValueTraits
    getter expandRoles req = (req', inr tt) →
  (Request.Check uuid_Parse req' = (req', inr tt) ↔ AccessRequestV3.GetRoles req' ≠ [])
  ∧ (AccessRequestV3.GetRoles req ≠ ["*"] → Request.Check uuid_Parse req' = (req', inr tt)).
Proof.
  intros Hcheck Hrun.
  destruct (ValidateAccessRequest_shape _ _ _ _ _ _ _ _ Hrun) as (Hshape & Hroles & _).
  assert (Hok : (Request.Check uuid_Parse req).2 = inr tt) by (rewrite Hcheck; reflexivity).
  apply Check_success in Hok as (Hk & Hv & Hn & Hid & Hu & Hr & Hp).
  assert (Hiff : (Request.Check uuid_Parse req').2 = inr tt
                 ↔ AccessRequestV3.GetRoles req' ≠ []).
  { rewrite Check_success. rewrite Hshape.
    destruct req as [kind version name [user0 roles st created expires reason rr1 ra sa]].
    unfold Request.GetName, Request.GetResolveReason, Request.GetResolveAnnotations,
      AccessRequestV3.GetUser, AccessRequestV3.GetRoles, AccessRequestV3.GetState in *.
    simpl in *. tauto. }
  assert (Hpair : ∀ res, (Request.Check uuid_Parse req').2 = res
                         ↔ Request.Check uuid_Parse req' = (req', res)).
  { intros res. rewrite <- (Check_leaves uuid_Parse req') at 3.
    destruct (Request.Check uuid_Parse req') as [r0 res0]; simpl.
    split; [intros ->; reflexivity | intros [= ->]; reflexivity]. }
  split.
  - rewrite <- Hpair. exact Hiff.
  - intros Hnw. apply Hpair, Hiff. rewrite (Hroles Hnw). exact Hr.
Qed.

End CheckAfterValidation.

Lemma CheckAndSetDefaults_success (checkMetadata : M string unit)
    (uuid_Parse : string → bool) (r r' : AccessRequestV3.t) :
  Request.CheckAndSetDefaults checkMetadata uuid_Parse r = (r', inr tt) →
  ∃ name,
    checkMetadata (AccessRequestV3.Metadata_Name r) = (name, inr tt)
    ∧ r' = AccessRequestV3.set_Spec
             (AccessRequestSpecV3.set_State
                (if IsNone (AccessRequestV3.GetState r) then RequestState_PENDING
                 else AccessRequestV3.GetState r))
             (Request.set_Metadata name r)
    ∧ (Request.Check uuid_Parse r').2 = inr tt.
Proof.
  unfold Request.CheckAndSetDefaults, mbind, M_bind.
  unfold bind at 1. unfold wrapped at 1. unfold zoom.
  destruct (checkMetadata (AccessRequestV3.Metadata_Name r)) as [name [e|[]]];
    [discriminate|].
  unfold bind at 1. unfold get at 1. unfold bind at 1.
  change (AccessRequestV3.GetState (Request.set_Metadata name r))
    with (AccessRequestV3.GetState r).
  assert (Hset : (if IsNone (AccessRequestV3.GetState r)
                  then wrapped (AccessRequestV3.SetState RequestState_PENDING)
                  else mret tt) (Request.set_Metadata name r)
                 = (AccessRequestV3.set_Spec
                      (AccessRequestSpecV3.set_State
                         (if IsNone (AccessRequestV3.GetState r) then RequestState_PENDING
                          else AccessRequestV3.GetState r))
                      (Request.set_Metadata name r), inr tt)).
  { destruct (IsNone (AccessRequestV3.GetState r)) eqn:Hnone.
    - unfold wrapped. rewrite SetState_run.
      change (AccessRequestV3.GetState (Request.set_Metadata name r))
        with (AccessRequestV3.GetState r).
      apply bool_decide_eq_true in Hnone. rewrite Hnone. reflexivity.
    - destruct r as [? ? ? []]. reflexivity. }
  rewrite Hset. clear Hset. unfold wrapped.
  match goal with
  | |- context [Request.Check uuid_Parse ?x] =>
      pose proof (Check_leaves uuid_Parse x) as Hleaves;
      destruct (Request.Check uuid_Parse x) as [r0 [e|[]]] eqn:Hcheck
  end; [discriminate|].
  simpl in Hleaves. subst r0. intros [= <-].
  exists name. split; [reflexivity|]. split; [reflexivity|]. rewrite Hcheck. reflexivity.
Qed.

(** X18. When [CheckAndSetDefaults] succeeds, a request that had no state is
    PENDING and any other state is kept; the user and the roles are the given
    ones and neither is empty; and the request then passes [Check]. *)
Theorem CheckAndSetDefaults_defaults (checkMetadata : M string unit)
    (uuid_Parse : string → bool) (r r' : AccessRequestV3.t) :
  Request.CheckAndSetDefaults checkMetadata uuid_Parse r = (r', inr tt) →
  AccessRequestV3.GetState r'
  = (if bool_decide (AccessRequestV3.GetState r = RequestState_NONE)
     then RequestState_PENDING else AccessRequestV3.GetState r)
  ∧ AccessRequestV3.GetState r' ≠ RequestState_NONE
  ∧ AccessRequestV3.GetUser r' = AccessRequestV3.GetUser r
  ∧ AccessRequestV3.GetRoles r' = AccessRequestV3.GetRoles r
  ∧ AccessRequestV3.GetUser r ≠ "" ∧ AccessRequestV3.GetRoles r ≠ []
  ∧ Request.Check uuid_Parse r' = (r', inr tt).
Proof.
  intros Hrun. apply CheckAndSetDefaults_success in Hrun as (name & _ & Hshape & Hcheck).
  assert (Hpair : Request.Check uuid_Parse r' = (r', inr tt)).
  { rewrite <- (Check_leaves uuid_Parse r') at 2. rewrite <- Hcheck.
    destruct (Request.Check uuid_Parse r'); reflexivity. }
  apply Check_success in Hcheck as (_ & _ & _ & _ & Hu & Hr & _).
  rewrite Hshape in Hu, Hr |- *.
  destruct r as [kind version name0 [user0 roles st created expires reason rr1 ra sa]].
  unfold AccessRequestV3.GetState, AccessRequestV3.GetUser, AccessRequestV3.GetRoles,
    IsNone in *. simpl in *.
  split; [reflexivity|]. split; [case_bool_decide; [discriminate | assumption]|].
  rewrite <- Hshape. tauto.
Qed.

(** X19. [NewAccessRequest] returns a request only for a user name and a role
    list that are not empty; the request it returns is PENDING, names that
    user and those roles, passes [Check] and carries no reason and no
    annotation. *)
Theorem NewAccessRequest_pending (KindAccessRequest V3 uuid_New : string)
    (checkMetadata : M string unit) (uuid_Parse : string → bool)
    (user : string) (roles : list string) (req : AccessRequestV3.t) :
  Request.NewAccessRequest KindAccessRequest V3 uuid_New checkMetadata uuid_Parse user roles
  = inr req →
  user ≠ "" ∧ roles ≠ []
  ∧ AccessRequestV3.GetState req = RequestState_PENDING
  ∧ AccessRequestV3.GetUser req = user
  ∧ AccessRequestV3.GetRoles req = roles
  ∧ AccessRequestV3.GetRequestReason req = ""
  ∧ AccessRequestV3.GetSystemAnnotations req = ∅
  ∧ (Request.Check uuid_Parse req).2 = inr tt.
Proof.
  unfold Request.NewAccessRequest.
  destruct (Request.CheckAndSetDefaults checkMetadata uuid_Parse _) as [r' [e|[]]] eqn:Hrun;
    [discriminate|].
  intros [= <-].
  apply CheckAndSetDefaults_success in Hrun as (name & _ & Hshape & Hcheck).
  pose proof Hcheck as Hfields.
  apply Check_success in Hfields as (_ & _ & _ & _ & Hu & Hr & _).
  rewrite Hshape in Hu, Hr. simpl in Hu, Hr.
  split; [exact Hu|]. split; [exact Hr|].
  rewrite Hshape at 1 2 3 4 5. repeat split. exact Hcheck.
Qed.

(** ** Resolution attributes of [tctl requests] *)

Lemma splitAttrs_body_cases (TrimSpace : string → string) (s : string)
    (attrs : gmap string string) :
  (s = "" ∧ Tctl.splitAttrs_body TrimSpace s attrs = (attrs, inr tt))
  ∨ (∃ err, Tctl.splitAttrs_body TrimSpace s attrs = (attrs, inl err)
            ∧ is_BadParameter err = true)
  ∨ (s ≠ "" ∧ (1 ≤ Tctl.Index s Tctl.equals_sign)%Z
     ∧ TrimSpace (Tctl.slice s 0 (Tctl.Index s Tctl.equals_sign)) ≠ ""
     ∧ TrimSpace (Tctl.slice s (Tctl.Index s Tctl.equals_sign + 1)
                    (Z.of_nat (String.length s))) ≠ ""
     ∧ Tctl.splitAttrs_body TrimSpace s attrs
       = (<[TrimSpace (Tctl.slice s 0 (Tctl.Index s Tctl.equals_sign))
            := TrimSpace (Tctl.slice s (Tctl.Index s Tctl.equals_sign + 1)
                            (Z.of_nat (String.length s)))]> attrs, inr tt)).
Proof.
  unfold Tctl.splitAttrs_body.
  case_bool_decide as Hs; [left; split; [exact Hs | reflexivity]|].
  right. cbv zeta.
  case_bool_decide as Hidx; [left; eexists; split; reflexivity|].
  case_bool_decide as Hkey; [left; eexists; split; reflexivity|].
  case_bool_decide as Hval; [left; eexists; split; reflexivity|].
  right. repeat split; try assumption. lia.
Qed.

Lemma splitAttrs_loop (TrimSpace : string → string) (all segments : list string)
    (attrs attrs' : gmap string string) :
  (∀ s, s ∈ segments → s ∈ all) →
  (∀ k v, attrs !! k = Some v → from_segment TrimSpace all k v) →
  for_range segments (Tctl.splitAttrs_body TrimSpace) attrs = (attrs', inr tt) →
  ∀ k v, attrs' !! k = Some v → from_segment TrimSpace all k v.
Proof.
  revert attrs. induction segments as [|s rest IH]; intros attrs Hsub Hinv.
  - intros [= <-]. exact Hinv.
  - cbn [for_range]. unfold mbind, M_bind, bind.
    assert (Hrest : ∀ s0, s0 ∈ rest → s0 ∈ all) by (intros s0 H; apply Hsub; right; exact H).
    destruct (splitAttrs_body_cases TrimSpace s attrs)
      as [[_ ->]|[(err & -> & _)|(Hs & Hidx & Hkey & Hval & ->)]].
    + apply IH; assumption.
    + discriminate.
    + apply IH; [exact Hrest|].
      intros k v Hkv. apply lookup_insert_Some in Hkv as [[<- <-]|[_ Hkv]].
      * split; [exact Hkey|]. split; [exact Hval|].
        exists s. split; [apply Hsub; left|]. split; [exact Hidx|]. split; reflexivity.
      * apply Hinv. exact Hkv.
Qed.

(** X20. Every entry of the map that [splitAttrs] returns has a key and a
    value that are not empty, and comes from a segment of the flag between
    commas that has an equals sign after its first byte: the key is the
    trimmed text before the first equals sign, the value the trimmed text
    after it. *)
Theorem splitAttrs_entries (TrimSpace : string → string) (attrs_flag : string)
    (attrs : gmap string string) :
  Tctl.splitAttrs TrimSpace attrs_flag = inr attrs →
  ∀ k v, attrs !! k = Some v →
    from_segment TrimSpace (Tctl.Split attrs_flag Tctl.comma) k v.
Proof.
  unfold Tctl.splitAttrs. cbv zeta.
  destruct (for_range (Tctl.Split attrs_flag Tctl.comma) (Tctl.splitAttrs_body TrimSpace) ∅)
    as [m [err|[]]] eqn:Hloop; [discriminate|].
  intros [= <-]. eapply splitAttrs_loop; [| |exact Hloop].
  - tauto.
  - intros k v Hkv. rewrite lookup_empty in Hkv. discriminate.
Qed.

Lemma splitAttrs_loop_rejects (TrimSpace : string → string) (segments : list string)
    (attrs : gmap string string) :
  (∃ s, s ∈ segments ∧ s ≠ "" ∧ (Tctl.Index s Tctl.equals_sign < 1)%Z) →
  ∃ attrs' err,
    for_range segments (Tctl.splitAttrs_body TrimSpace) attrs = (attrs', inl err)
    ∧ is_BadParameter err = true.
Proof.
  revert attrs. induction segments as [|s0 rest IH]; intros attrs (s & Hin & Hs & Hidx).
  - inversion Hin.
  - cbn [for_range]. unfold mbind, M_bind, bind.
    destruct (splitAttrs_body_cases TrimSpace s0 attrs)
      as [[Hempty ->]|[(err & -> & Hbad)|(_ & Hidx0 & _ & _ & ->)]].
    + apply IH. exists s. apply elem_of_cons in Hin as [->|Hin]; [contradiction | tauto].
    + eauto.
    + apply IH. exists s. apply elem_of_cons in Hin as [->|Hin]; [lia | tauto].
Qed.

(** X21. [splitAttrs] refuses a flag with a segment that is not empty and has
    no equals sign, or has it as its first byte: it returns a BadParameter
    error and no map. *)
Theorem splitAttrs_rejects (TrimSpace : string → string) (attrs_flag s : string) :
  s ∈ Tctl.Split attrs_flag Tctl.comma →
  s ≠ "" →
  (Tctl.Index s Tctl.equals_sign < 1)%Z →
  ∃ err, Tctl.splitAttrs TrimSpace attrs_flag = inl err ∧ is_BadParameter err = true.
Proof.
  intros Hin Hs Hidx. unfold Tctl.splitAttrs. cbv zeta.
  destruct (splitAttrs_loop_rejects TrimSpace (Tctl.Split attrs_flag Tctl.comma) ∅)
    as (attrs' & err & -> & Hbad); [eauto|].
  eauto.
Qed.

(** X22. [splitAttrs] passes over empty segments: a flag that is empty or
    made of commas only gives the empty map and no error. *)
Theorem splitAttrs_blank (TrimSpace : string → string) (attrs_flag : string) :
  (∀ s, s ∈ Tctl.Split attrs_flag Tctl.comma → s = "") →
  Tctl.splitAttrs TrimSpace attrs_flag = inr ∅.
Proof.
  intros Hblank. unfold Tctl.splitAttrs. cbv zeta.
  assert (Hloop : ∀ segments (attrs : gmap string string),
            (∀ s, s ∈ segments → s = "") →
            for_range segments (Tctl.splitAttrs_body TrimSpace) attrs = (attrs, inr tt)).
  { induction segments as [|s rest IH]; intros attrs Hall; [reflexivity|].
    cbn [for_range]. unfold mbind, M_bind, bind.
    rewrite (Hall s) by left. simpl. apply IH. intros s0 H. apply Hall. right. exact H. }
  rewrite Hloop by exact Hblank. reflexivity.
Qed.

(** ** The further statements at concrete inputs *)

Lemma ValidateAccessRequest_error_leaves_request_witness :
  (Plain.ValidateAccessRequest Plain.reason_getter true (Plain.wildcard_request "")).1
  = Plain.wildcard_request "".
Proof.
  eapply (ValidateAccessRequest_error_leaves_request Plain.NewMatcher Plain.Match
            Plain.TraitsToRoles Plain.applyValueTraits Plain.reason_getter true
            (Plain.wildcard_request "")).
  vm_compute. reflexivity.
Defined.

Lemma ValidateAccessRequest_frame_witness :
  AccessRequestV3.GetRoles
    (Plain.ValidateAccessRequest Plain.base_getter false
       (Plain.request "alice" ["dev-infra"] RequestState_APPROVED "")).1
  = ["dev-infra"].
Proof.
  eapply (ValidateAccessRequest_frame Plain.NewMatcher Plain.Match
            Plain.TraitsToRoles Plain.applyValueTraits Plain.base_getter false
            (Plain.request "alice" ["dev-infra"] RequestState_APPROVED ""));
    [vm_compute; reflexivity | discriminate].
Defined.

Lemma expandRoles_only_for_wildcard_witness :
  Plain.ValidateAccessRequest Plain.base_getter true
    (Plain.request "alice" ["dev-secret"] RequestState_PENDING "")
  = Plain.ValidateAccessRequest Plain.base_getter false
      (Plain.request "alice" ["dev-secret"] RequestState_PENDING "").
Proof.
  apply (expandRoles_only_for_wildcard Plain.NewMatcher Plain.Match
           Plain.TraitsToRoles Plain.applyValueTraits Plain.base_getter
           (Plain.request "alice" ["dev-secret"] RequestState_PENDING "")).
  discriminate.
Defined.

Lemma validated_request_Equals_witness :
  Request.Equals
    (Plain.request "alice" ["dev-infra"] RequestState_PENDING "")
    (Plain.ValidateAccessRequest
       (Plain.getter (Plain.alice ["team"]) [Plain.team_role; Plain.dev_infra]) false
       (Plain.request "alice" ["dev-infra"] RequestState_PENDING "")).1
  = Some true.
Proof.
  eapply (validated_request_Equals Plain.NewMatcher Plain.Match
            Plain.TraitsToRoles Plain.applyValueTraits
            (Plain.getter (Plain.alice ["team"]) [Plain.team_role; Plain.dev_infra]) false
            (Plain.request "alice" ["dev-infra"] RequestState_PENDING ""));
    [vm_compute; reflexivity | discriminate].
Defined.

Lemma denied_stays_denied_witness :
  CanRequestRole Plain.Match
    (push Plain.NewMatcher Plain.TraitsToRoles Plain.applyValueTraits Plain.team_role
       More.denying_validator).1 "dev-secret"
  = false.
Proof.
  apply (denied_stays_denied Plain.NewMatcher Plain.Match Plain.TraitsToRoles
           Plain.applyValueTraits Plain.team_role More.denying_validator "dev-secret").
  exists (Plain.Literal "dev-secret"). split; [|reflexivity].
  apply list_elem_of_In. vm_compute. left. reflexivity.
Defined.

Lemma push_error_is_first_bad_pattern_witness :
  ∃ before p after,
    ["dev-secret"; "dev-*"; "^(prod"] = before ++ p :: after
    ∧ Forall (λ q, ∃ md, More.strict_NewMatcher q = inr md) before
    ∧ More.strict_NewMatcher p = inl (BadParameter "failed parsing regexp %q" ["^(prod"]).
Proof.
  eapply (push_error_is_first_bad_pattern More.strict_NewMatcher Plain.TraitsToRoles
            Plain.applyValueTraits More.broken_role Plain.pending_validator).
  vm_compute. reflexivity.
Defined.

Lemma no_annotations_unless_pending_witness :
  SystemAnnotations
    (push_held_roles Plain.NewMatcher Plain.TraitsToRoles Plain.applyValueTraits
       (Plain.getter (Plain.alice ["team"]) [Plain.team_role]) ["team"]
       (newRequestValidator Plain.Matcher {[ "team" := ["infra"] ]} RequestState_APPROVED,
        false)).1.1
  = ∅.
Proof.
  apply (no_annotations_unless_pending Plain.NewMatcher Plain.TraitsToRoles
           Plain.applyValueTraits (Plain.getter (Plain.alice ["team"]) [Plain.team_role])
           ["team"] {[ "team" := ["infra"] ]} RequestState_APPROVED).
  discriminate.
Defined.

Lemma no_held_role_no_request_witness :
  Plain.ValidateAccessRequest More.bare_getter false
    (Plain.request "alice" ["dev-infra"; "base"] RequestState_PENDING "")
  = (Plain.request "alice" ["dev-infra"; "base"] RequestState_PENDING "",
     inl (BadParameter "user %q cannot request/assume role %q" ["alice"; "dev-infra"])).
Proof.
  eapply (no_held_role_no_request Plain.NewMatcher Plain.Match Plain.TraitsToRoles
            Plain.applyValueTraits More.bare_getter
            (Plain.request "alice" ["dev-infra"; "base"] RequestState_PENDING ""));
    [vm_compute; reflexivity | reflexivity | reflexivity | discriminate].
Defined.

Lemma Check_after_validation_witness :
  Request.Check More.uuid_Parse
    (Plain.ValidateAccessRequest Plain.base_getter false (More.storable ["dev-infra"])).1
  = ((Plain.ValidateAccessRequest Plain.base_getter false (More.storable ["dev-infra"])).1,
     inr tt).
Proof.
  eapply (Check_after_validation Plain.NewMatcher Plain.Match Plain.TraitsToRoles
            Plain.applyValueTraits More.uuid_Parse Plain.base_getter false
            (More.storable ["dev-infra"]));
    [vm_compute; reflexivity | vm_compute; reflexivity | discriminate].
Defined.

Lemma CheckAndSetDefaults_defaults_witness :
  AccessRequestV3.GetState
    (Request.CheckAndSetDefaults More.checkMetadata More.uuid_Parse More.stateless).1
  = RequestState_PENDING.
Proof.
  eapply (CheckAndSetDefaults_defaults More.checkMetadata More.uuid_Parse More.stateless).
  vm_compute. reflexivity.
Defined.

Lemma NewAccessRequest_pending_witness :
  ∃ req,
    Request.NewAccessRequest "access_request" "v3" More.an_id More.checkMetadata
      More.uuid_Parse "alice" ["dev-infra"] = inr req
    ∧ AccessRequestV3.GetState req = RequestState_PENDING.
Proof.
  eexists. split; [vm_compute; reflexivity|].
  eapply (NewAccessRequest_pending "access_request" "v3" More.an_id More.checkMetadata
            More.uuid_Parse "alice" ["dev-infra"]).
  vm_compute. reflexivity.
Defined.

Lemma splitAttrs_entries_witness :
  ∃ attrs,
    Tctl.splitAttrs More.TrimSpace "team = infra,,env=prod" = inr attrs
    ∧ attrs !! "team" = Some "infra"
    ∧ from_segment More.TrimSpace
        (Tctl.Split "team = infra,,env=prod" Tctl.comma) "team" "infra".
Proof.
  eexists. split; [vm_compute; reflexivity|]. split; [vm_compute; reflexivity|].
  eapply (splitAttrs_entries More.TrimSpace "team = infra,,env=prod");
    vm_compute; reflexivity.
Defined.

Lemma splitAttrs_rejects_witness :
  ∃ err, Tctl.splitAttrs More.TrimSpace "team=infra,=prod" = inl err
         ∧ is_BadParameter err = true.
Proof.
  apply (splitAttrs_rejects More.TrimSpace "team=infra,=prod" "=prod").
  - apply list_elem_of_In. vm_compute. right. left. reflexivity.
  - discriminate.
  - vm_compute. reflexivity.
Defined.

Lemma splitAttrs_blank_witness :
  Tctl.splitAttrs More.TrimSpace ",," = inr ∅.
Proof.
  apply (splitAttrs_blank More.TrimSpace ",,").
  intros s Hs. apply list_elem_of_In in Hs. vm_compute in Hs.
  destruct Hs as [<-|[<-|[<-|[]]]]; reflexivity.
Defined.
